(** * garm-provider-oci: instance resolution, status mapping and spec composition

    A shallow embedding of the Go sources
      - [internal/client/oci.go]   (package [client])
      - [internal/util/util.go]    (package [util])
      - [internal/spec/spec.go]    (package [spec])
      - [provider/provider.go]     (package [provider])
    together with the theorems that relate them to the written
    specification.

    Conventions.
      - A Go [error] value is [option error]: [None] is [nil].
      - A Go pointer that may be [nil] is an [option]; dereferencing [None]
        is a run-time panic, recorded by the [Panic] outcome of [exec].
      - A Go [map[string]string] is a [gmap string string]; reading a key
        that is absent (or reading a nil map) yields the zero value, the
        empty string.
      - The remote compute service is a world state [W] threaded through
        every call of [ClientInterface]. *)

From Stdlib Require Import ZArith String Ascii List Bool.
From Stdlib Require Import Floats.PrimFloat.
From stdpp Require Import base option strings pretty gmap list.

Set Warnings "-register-all".

Local Open Scope string_scope.
Local Open Scope Z_scope.

(* ===================================================================== *)
(** ** Go errors: [fmt.Errorf], [%w] wrapping and [errors.Is]            *)
(* ===================================================================== *)

Module errors.

(** [ErrNotFound] is the sentinel [garmErrors.ErrNotFound]; an
    [errorString] is what [errors.New] or [fmt.Errorf] without [%w]
    builds; a [wrapError] is what [fmt.Errorf] with one [%w] builds:
    the formatted text together with the wrapped cause. *)
Inductive error : Type :=
| ErrNotFound
| errorString (s : string)
| wrapError (msg : string) (err : error).

Definition Error (e : error) : string :=
  match e with
  | ErrNotFound => "not found"
  | errorString s => s
  | wrapError msg _ => msg
  end.

(** [fmt.Errorf(prefix + "%w", err)] *)
Definition Errorf_w (prefix : string) (err : error) : error :=
  wrapError (prefix +:+ Error err) err.

(** [fmt.Errorf(prefix + "%s", s)] *)
Definition Errorf_s (prefix : string) (s : string) : error :=
  errorString (prefix +:+ s).

Fixpoint error_eqb (a b : error) : bool :=
  match a, b with
  | ErrNotFound, ErrNotFound => true
  | errorString s, errorString t => String.eqb s t
  | wrapError m e, wrapError n f => String.eqb m n && error_eqb e f
  | _, _ => false
  end.

(** [errors.Is(err, target)]: [err] or an error it wraps is [target]. *)
Fixpoint Is (err target : error) : bool :=
  error_eqb err target
  || match err with
     | wrapError _ inner => Is inner target
     | _ => false
     end.

End errors.
Export errors.

(* ===================================================================== *)
(** ** Outcomes of a call: normal return or run-time panic               *)
(* ===================================================================== *)

Inductive exec (A : Type) : Type :=
| Done (a : A)
| Panic (reason : string).
Arguments Done {A} a.
Arguments Panic {A} reason.

Definition nilDereference : string :=
  "runtime error: invalid memory address or nil pointer dereference".

(** Computations against the remote service: a state monad over the
    world [W] in which a panic aborts what follows. *)
Definition Cloud (W A : Type) : Type := W -> exec A * W.

#[global] Instance Cloud_ret {W} : MRet (Cloud W) :=
  fun A (a : A) w => (Done a, w).

#[global] Instance Cloud_bind {W} : MBind (Cloud W) :=
  fun A B (k : A -> Cloud W B) (m : Cloud W A) w =>
    match m w with
    | (Done a, w') => k a w'
    | (Panic r, w') => (Panic r, w')
    end.

Definition panic {W A} (reason : string) : Cloud W A :=
  fun w => (Panic reason, w).

(** [*p] for a pointer [p] *)
Definition deref {W A} (p : option A) : Cloud W A :=
  match p with
  | Some a => mret a
  | None => panic nilDereference
  end.

(** a call of the collaborator: it returns, and moves the world *)
Definition call {W A} (f : W -> A * W) : Cloud W A :=
  fun w => let '(a, w') := f w in (Done a, w').

(* ===================================================================== *)
(** ** The SDK types the program reads and writes ([oci-go-sdk/core])    *)
(* ===================================================================== *)

Module core.

(** [type InstanceLifecycleStateEnum string] *)
Definition InstanceLifecycleStateEnum : Type := string.

Definition InstanceLifecycleStateMoving : InstanceLifecycleStateEnum := "MOVING".
Definition InstanceLifecycleStateProvisioning : InstanceLifecycleStateEnum := "PROVISIONING".
Definition InstanceLifecycleStateRunning : InstanceLifecycleStateEnum := "RUNNING".
Definition InstanceLifecycleStateStarting : InstanceLifecycleStateEnum := "STARTING".
Definition InstanceLifecycleStateStopping : InstanceLifecycleStateEnum := "STOPPING".
Definition InstanceLifecycleStateStopped : InstanceLifecycleStateEnum := "STOPPED".
Definition InstanceLifecycleStateCreatingImage : InstanceLifecycleStateEnum := "CREATING_IMAGE".
Definition InstanceLifecycleStateTerminating : InstanceLifecycleStateEnum := "TERMINATING".
Definition InstanceLifecycleStateTerminated : InstanceLifecycleStateEnum := "TERMINATED".

(** the states the SDK enumerates *)
Definition InstanceLifecycleStateEnumValues : list InstanceLifecycleStateEnum :=
  [ InstanceLifecycleStateMoving; InstanceLifecycleStateProvisioning;
    InstanceLifecycleStateRunning; InstanceLifecycleStateStarting;
    InstanceLifecycleStateStopping; InstanceLifecycleStateStopped;
    InstanceLifecycleStateCreatingImage; InstanceLifecycleStateTerminating;
    InstanceLifecycleStateTerminated ].

(** [core.Instance], restricted to the fields the program uses.
    [Id] and [DisplayName] are [*string]. *)
Record Instance : Type := {
  Id : option string;
  DisplayName : option string;
  FreeformTags : gmap string string;
  LifecycleState : InstanceLifecycleStateEnum
}.

(** [m[key]] on a [map[string]string] *)
Definition index (m : gmap string string) (key : string) : string :=
  default EmptyString (m !! key).

Record LaunchInstanceDetails : Type := {
  lid_CompartmentId : string;
  lid_AvailabilityDomain : string;
  lid_DisplayName : string;
  lid_Shape : string;
  lid_SubnetId : string;
  lid_NsgIds : list string;
  lid_Ocpus : float;
  lid_MemoryInGBs : float;
  lid_FreeformTags : gmap string string;
  lid_Metadata : gmap string string;
  lid_ImageId : string;
  lid_BootVolumeSizeInGBs : Z
}.

Record LaunchInstanceRequest : Type :=
  { lir_LaunchInstanceDetails : LaunchInstanceDetails }.
Record LaunchInstanceResponse : Type := { lir_Instance : Instance }.

Record GetInstanceRequest : Type := { gir_InstanceId : string }.
Record GetInstanceResponse : Type := { gir_Instance : Instance }.

Record TerminateInstanceRequest : Type := { tir_InstanceId : string }.

Record ListInstancesRequest : Type := { lsr_CompartmentId : string }.
Record ListInstancesResponse : Type := { Items : list Instance }.

Inductive InstanceActionActionEnum : Type :=
| InstanceActionActionStop
| InstanceActionActionStart.

Record InstanceActionRequest : Type := {
  iar_InstanceId : string;
  iar_Action : InstanceActionActionEnum
}.

End core.

(* ===================================================================== *)
(** ** [garm-provider-common/params]                                     *)
(* ===================================================================== *)

Module params.

Definition OSType : Type := string.
Definition OSArch : Type := string.
Definition Linux : OSType := "linux".
Definition Windows : OSType := "windows".
Definition Amd64 : OSArch := "amd64".

Definition InstanceStatus : Type := string.
Definition InstanceRunning : InstanceStatus := "running".
Definition InstanceStopped : InstanceStatus := "stopped".
Definition InstanceStatusUnknown : InstanceStatus := "unknown".

Record ProviderInstance : Type := {
  ProviderID : string;
  Name : string;
  OSType_ : OSType;
  OSArch_ : OSArch;
  Status : InstanceStatus
}.

Record RunnerApplicationDownload : Type := {
  OS : option string;
  Architecture : option string;
  DownloadURL : option string;
  Filename : option string
}.

Record UserDataOptions : Type := {
  DisableUpdatesOnBoot : bool;
  udo_ExtraPackages : list string;
  udo_EnableBootDebug : bool
}.

(** [params.BootstrapInstance]; [ExtraSpecs] is a [json.RawMessage],
    a byte string. *)
Record BootstrapInstance : Type := {
  bi_Name : string;
  Tools : list RunnerApplicationDownload;
  bi_OSArch : OSArch;
  bi_OSType : OSType;
  Flavor : string;
  Image : string;
  PoolID : string;
  ExtraSpecs : string;
  bi_UserDataOptions : UserDataOptions
}.

End params.

(* ===================================================================== *)
(** ** [internal/util]: normalising an instance record                   *)
(* ===================================================================== *)

Module util.
Import core params.

(** The [switch ociInstance.LifecycleState] of
    [OciInstanceToProviderInstance]. *)
Definition statusOf (state : InstanceLifecycleStateEnum) : InstanceStatus :=
  if String.eqb state InstanceLifecycleStateRunning then InstanceRunning
  else if String.eqb state InstanceLifecycleStateStopped
          || String.eqb state InstanceLifecycleStateTerminated
       then InstanceStopped
       else InstanceStatusUnknown.

(** [OciInstanceToProviderInstance]; it dereferences [ociInstance.Id]. *)
Definition OciInstanceToProviderInstance (ociInstance : Instance)
  : exec ProviderInstance :=
  match Id ociInstance with
  | None => Panic nilDereference
  | Some id =>
      Done {| ProviderID := id;
              Name := index (FreeformTags ociInstance) "Name";
              OSType_ := index (FreeformTags ociInstance) "OSType";
              OSArch_ := index (FreeformTags ociInstance) "OSArch";
              Status := statusOf (LifecycleState ociInstance) |}
  end.

End util.

(* ===================================================================== *)
(** ** [config]                                                          *)
(* ===================================================================== *)

Module config.

Record Config : Type := {
  AvailabilityDomain : string;
  CompartmentId : string;
  SubnetID : string;
  NsgID : string;
  TenancyID : string;
  UserID : string;
  Region : string;
  Fingerprint : string;
  PrivateKeyPath : string;
  PrivateKeyPassword : string
}.

End config.

(** The methods of [*Config]. *)
Module Config.
Import config.

Definition Validate (c : Config) : option error :=
  if String.eqb (AvailabilityDomain c) EmptyString
  then Some (errorString "availability_domain is required")
  else if String.eqb (CompartmentId c) EmptyString
  then Some (errorString "compartment_id is required")
  else if String.eqb (SubnetID c) EmptyString
  then Some (errorString "subnet_id is required")
  else if String.eqb (NsgID c) EmptyString
  then Some (errorString "ngs_id is required")
  else if String.eqb (TenancyID c) EmptyString
  then Some (errorString "tenancy_id is required")
  else if String.eqb (UserID c) EmptyString
  then Some (errorString "user_id is required")
  else if String.eqb (Region c) EmptyString
  then Some (errorString "region is required")
  else if String.eqb (Fingerprint c) EmptyString
  then Some (errorString "fingerprint is required")
  else if String.eqb (PrivateKeyPath c) EmptyString
  then Some (errorString "private_key_path is required")
  else None.

End Config.

(* ===================================================================== *)
(** ** JSON documents and their decoding ([encoding/json])               *)
(* ===================================================================== *)

(** The validator reads the extra-specs blob with
    [json.NewDecoder(r).UseNumber().Decode(&document)]: one JSON value is
    decoded from the front of the input, numbers are kept as their
    literal text, an object becomes a Go map (a repeated key keeps its
    last value) and whatever follows the value is not looked at.  As in
    the package, a string literal is first delimited by the scanner,
    which checks its escapes, and then unquoted: escapes are decoded, a
    [\u] escape to the UTF-8 encoding of its code point (two escapes
    that form a surrogate pair to one code point, a lone surrogate to
    U+FFFD), and bytes that are not well-formed UTF-8 are replaced by
    U+FFFD.  Containers nest at most 10000 deep.  One simplification: the
    text of a syntax error does not name the offending byte. *)

Module json.

Inductive value : Type :=
| JNull
| JBool (b : bool)
| JNumber (lit : string)
| JString (s : string)
| JArray (elems : list value)
| JObject (members : list (string * value)).

(** [io.EOF], [io.ErrUnexpectedEOF] and [*json.SyntaxError] *)
Definition io_EOF : error := errorString "EOF".
Definition io_ErrUnexpectedEOF : error := errorString "unexpected EOF".
Definition SyntaxError : error := errorString "invalid character".

Inductive scan (A : Type) : Type :=
| Scanned (a : A) (rest : string)
| Failed (err : error).
Arguments Scanned {A} a rest.
Arguments Failed {A} err.

Definition dquote : ascii := "034"%char.
Definition backslash : ascii := "092"%char.

Definition isSpace (c : ascii) : bool :=
  Ascii.eqb c " " || Ascii.eqb c "009" || Ascii.eqb c "010" || Ascii.eqb c "013".

Definition isDigit (c : ascii) : bool :=
  (48 <=? nat_of_ascii c)%nat && (nat_of_ascii c <=? 57)%nat.

Fixpoint skipSpace (s : string) : string :=
  match s with
  | String c rest => if isSpace c then skipSpace rest else s
  | EmptyString => s
  end.

Definition isHex (c : ascii) : bool :=
  let n := nat_of_ascii c in
  ((48 <=? n) && (n <=? 57) || (97 <=? n) && (n <=? 102)
   || (65 <=? n) && (n <=? 70))%nat.

(** the scanner's states inside a string literal: [stateInString],
    [stateInStringEsc], and [stateInStringEscU] to [stateInStringEscU123]
    by the number of hexadecimal digits still to come *)
Inductive stringState : Type :=
| inString
| inStringEsc
| inStringEscU (digits : nat).

(** the scanner on the rest of a string literal, after its opening
    quote: the text of the literal up to its closing quote, escapes as
    written, and what follows the quote *)
Fixpoint scanLiteral (st : stringState) (s : string) : scan string :=
  match s with
  | EmptyString => Failed io_ErrUnexpectedEOF
  | String c rest =>
      let more (st' : stringState) :=
        match scanLiteral st' rest with
        | Scanned t r => Scanned (String c t) r
        | Failed err => Failed err
        end in
      match st with
      | inString =>
          if Ascii.eqb c dquote then Scanned EmptyString rest
          else if Ascii.eqb c backslash then more inStringEsc
          else if (nat_of_ascii c <? 32)%nat then Failed SyntaxError
          else more inString
      | inStringEsc =>
          if Ascii.eqb c "b" || Ascii.eqb c "f" || Ascii.eqb c "n"
             || Ascii.eqb c "r" || Ascii.eqb c "t" || Ascii.eqb c backslash
             || Ascii.eqb c "/" || Ascii.eqb c dquote
          then more inString
          else if Ascii.eqb c "u" then more (inStringEscU 4)
          else Failed SyntaxError
      | inStringEscU digits =>
          if isHex c then
            more match digits with
                 | S (S k) => inStringEscU (S k)
                 | _ => inString
                 end
          else Failed SyntaxError
      end
  end.

(** *** [unicode/utf16] and [unicode/utf8] *)

(** a rune; [-1], which [getu4] returns for a text that is no escape, is
    [None] of [option rune] *)
Definition rune : Type := N.

Definition RuneError : rune := 0xFFFD%N.
Definition ReplacementChar : rune := 0xFFFD%N.
Definition MaxRune : rune := 0x10FFFF%N.
Definition surr1 : rune := 0xd800%N.
Definition surr2 : rune := 0xdc00%N.
Definition surr3 : rune := 0xe000%N.
Definition surrSelf : rune := 0x10000%N.

(** [utf16.IsSurrogate] *)
Definition IsSurrogate (r : rune) : bool :=
  ((surr1 <=? r) && (r <? surr3))%N.

(** [utf16.DecodeRune] *)
Definition utf16_DecodeRune (r1 : rune) (r2 : option rune) : rune :=
  match r2 with
  | Some r2 =>
      if ((surr1 <=? r1) && (r1 <? surr2) && (surr2 <=? r2) && (r2 <? surr3))%N
      then (N.lor (N.shiftl (r1 - surr1) 10) (r2 - surr2) + surrSelf)%N
      else ReplacementChar
  | None => ReplacementChar
  end.

Definition byte (n : N) : ascii := ascii_of_N n.

(** [utf8.EncodeRune] *)
Definition EncodeRune (r : rune) : string :=
  let three (r : rune) : string :=
    String (byte (N.lor 0xE0 (N.shiftr r 12)))
      (String (byte (N.lor 0x80 (N.land (N.shiftr r 6) 0x3F)))
         (String (byte (N.lor 0x80 (N.land r 0x3F))) EmptyString)) in
  if (r <=? 0x7F)%N then String (byte r) EmptyString
  else if (r <=? 0x7FF)%N then
    String (byte (N.lor 0xC0 (N.shiftr r 6)))
      (String (byte (N.lor 0x80 (N.land r 0x3F))) EmptyString)
  else if (MaxRune <? r)%N || ((0xD800 <=? r) && (r <=? 0xDFFF))%N then
    three RuneError
  else if (r <=? 0xFFFF)%N then three r
  else
    String (byte (N.lor 0xF0 (N.shiftr r 18)))
      (String (byte (N.lor 0x80 (N.land (N.shiftr r 12) 0x3F)))
         (String (byte (N.lor 0x80 (N.land (N.shiftr r 6) 0x3F)))
            (String (byte (N.lor 0x80 (N.land r 0x3F))) EmptyString))).

(** the table [first] with [acceptRanges]: for a leading byte, the
    length of its sequence and the range its second byte must be in;
    [None] for a byte that leads no sequence *)
Definition acceptRange (b0 : N) : option (nat * N * N) :=
  if (b0 <? 0xC2)%N then None
  else if (b0 <=? 0xDF)%N then Some (2%nat, 0x80, 0xBF)%N
  else if (b0 =? 0xE0)%N then Some (3%nat, 0xA0, 0xBF)%N
  else if (b0 <=? 0xEC)%N then Some (3%nat, 0x80, 0xBF)%N
  else if (b0 =? 0xED)%N then Some (3%nat, 0x80, 0x9F)%N
  else if (b0 <=? 0xEF)%N then Some (3%nat, 0x80, 0xBF)%N
  else if (b0 =? 0xF0)%N then Some (4%nat, 0x90, 0xBF)%N
  else if (b0 <=? 0xF3)%N then Some (4%nat, 0x80, 0xBF)%N
  else if (b0 =? 0xF4)%N then Some (4%nat, 0x80, 0x8F)%N
  else None.

Definition continuation (b : N) : bool := ((0x80 <=? b) && (b <=? 0xBF))%N.

(** [utf8.DecodeRune]: the first rune of a text and its width in bytes,
    [(RuneError, 1)] for an encoding that is not well formed *)
Definition DecodeRune (p : string) : rune * nat :=
  match p with
  | EmptyString => (RuneError, 0%nat)
  | String p0 rest =>
      let b0 := N_of_ascii p0 in
      if (b0 <? 0x80)%N then (b0, 1%nat)
      else
        match acceptRange b0, rest with
        | Some (sz, lo, hi), String p1 rest1 =>
            let b1 := N_of_ascii p1 in
            if (b1 <? lo)%N || (hi <? b1)%N then (RuneError, 1%nat)
            else if (sz <=? 2)%nat then
              (N.lor (N.shiftl (N.land b0 0x1F) 6) (N.land b1 0x3F), 2%nat)
            else
              match rest1 with
              | String p2 rest2 =>
                  let b2 := N_of_ascii p2 in
                  if negb (continuation b2) then (RuneError, 1%nat)
                  else if (sz <=? 3)%nat then
                    (N.lor (N.lor (N.shiftl (N.land b0 0x0F) 12)
                                  (N.shiftl (N.land b1 0x3F) 6))
                           (N.land b2 0x3F), 3%nat)
                  else
                    match rest2 with
                    | String p3 _ =>
                        let b3 := N_of_ascii p3 in
                        if negb (continuation b3) then (RuneError, 1%nat)
                        else
                          (N.lor (N.lor (N.lor (N.shiftl (N.land b0 0x07) 18)
                                               (N.shiftl (N.land b1 0x3F) 12))
                                        (N.shiftl (N.land b2 0x3F) 6))
                                 (N.land b3 0x3F), 4%nat)
                    | EmptyString => (RuneError, 1%nat)
                    end
              | EmptyString => (RuneError, 1%nat)
              end
        | _, _ => (RuneError, 1%nat)
        end
  end.

(** *** Unquoting *)

Definition hexValue (c : ascii) : N :=
  let n := N_of_ascii c in
  if isDigit c then (n - 48)%N
  else if (97 <=? n)%N then (n - 97 + 10)%N
  else (n - 65 + 10)%N.

(** [getu4]: the code unit of a text that starts with an escape
    [\uXXXX] *)
Definition getu4 (s : string) : option rune :=
  match s with
  | String b (String u (String h1 (String h2 (String h3 (String h4 _))))) =>
      if Ascii.eqb b backslash && Ascii.eqb u "u"
         && isHex h1 && isHex h2 && isHex h3 && isHex h4
      then Some (((hexValue h1 * 16 + hexValue h2) * 16 + hexValue h3) * 16
                 + hexValue h4)%N
      else None
  | _ => None
  end.

Fixpoint skip (n : nat) (s : string) : string :=
  match n, s with
  | S k, String _ rest => skip k rest
  | _, _ => s
  end.

(** the character an escape sequence [\c] stands for *)
Definition unescape (c : ascii) : option ascii :=
  if Ascii.eqb c dquote then Some dquote
  else if Ascii.eqb c backslash then Some backslash
  else if Ascii.eqb c "/" then Some "/"%char
  else if Ascii.eqb c "b" then Some "008"%char
  else if Ascii.eqb c "f" then Some "012"%char
  else if Ascii.eqb c "n" then Some "010"%char
  else if Ascii.eqb c "r" then Some "013"%char
  else if Ascii.eqb c "t" then Some "009"%char
  else None.

(** the loop of [unquoteBytes] over the text of a literal; each turn
    reads at least one byte, so a fuel of the length of the text and one
    is enough *)
Fixpoint unquoteBytes (fuel : nat) (s : string) : option string :=
  match fuel with
  | O => None
  | S n =>
      match s with
      | EmptyString => Some EmptyString
      | String c rest =>
          if Ascii.eqb c backslash then
            match rest with
            | EmptyString => None
            | String e rest' =>
                if Ascii.eqb e "u" then
                  match getu4 s with
                  | None => None
                  | Some rr =>
                      let r := skip 6 s in
                      if IsSurrogate rr then
                        let dec := utf16_DecodeRune rr (getu4 r) in
                        if negb (dec =? ReplacementChar)%N then
                          t ← unquoteBytes n (skip 6 r);
                          Some (EncodeRune dec +:+ t)
                        else
                          t ← unquoteBytes n r;
                          Some (EncodeRune ReplacementChar +:+ t)
                      else
                        t ← unquoteBytes n r;
                        Some (EncodeRune rr +:+ t)
                  end
                else
                  match unescape e with
                  | None => None
                  | Some x => t ← unquoteBytes n rest'; Some (String x t)
                  end
            end
          else if Ascii.eqb c dquote || (nat_of_ascii c <? 32)%nat then None
          else if (nat_of_ascii c <? 128)%nat then
            t ← unquoteBytes n rest; Some (String c t)
          else
            let '(rr, size) := DecodeRune s in
            t ← unquoteBytes n (skip size s);
            Some (EncodeRune rr +:+ t)
      end
  end.

(** [unquote], on the text between the quotes *)
Definition unquote (s : string) : option string :=
  unquoteBytes (S (String.length s)) s.

(** the rest of a string literal, after its opening quote: its value *)
Definition scanString (s : string) : scan string :=
  match scanLiteral inString s with
  | Failed err => Failed err
  | Scanned literal rest =>
      match unquote literal with
      | Some t => Scanned t rest
      | None => Failed SyntaxError
      end
  end.

Fixpoint takeDigits (s : string) : string * string :=
  match s with
  | String c rest =>
      if isDigit c then let '(d, r) := takeDigits rest in (String c d, r)
      else (EmptyString, s)
  | EmptyString => (EmptyString, s)
  end.

(** one or more digits *)
Definition scanDigits (s : string) : scan string :=
  match takeDigits s with
  | (EmptyString, EmptyString) => Failed io_ErrUnexpectedEOF
  | (EmptyString, _) => Failed SyntaxError
  | (d, r) => Scanned d r
  end.

(** [int = zero / ( digit1-9 *DIGIT )] *)
Definition scanInt (s : string) : scan string :=
  match s with
  | String "0" rest => Scanned "0" rest
  | _ => scanDigits s
  end.

Definition scanFrac (s : string) : scan string :=
  match s with
  | String "." rest =>
      match scanDigits rest with
      | Scanned d r => Scanned (String "." d) r
      | Failed err => Failed err
      end
  | _ => Scanned EmptyString s
  end.

Definition scanSign (s : string) : string * string :=
  match s with
  | String c rest =>
      if Ascii.eqb c "+" || Ascii.eqb c "-" then (String c EmptyString, rest)
      else (EmptyString, s)
  | EmptyString => (EmptyString, s)
  end.

Definition scanExp (s : string) : scan string :=
  match s with
  | String c rest =>
      if Ascii.eqb c "e" || Ascii.eqb c "E" then
        let '(sign, rest') := scanSign rest in
        match scanDigits rest' with
        | Scanned d r => Scanned (String c (sign +:+ d)) r
        | Failed err => Failed err
        end
      else Scanned EmptyString s
  | EmptyString => Scanned EmptyString s
  end.

(** [number = [ minus ] int [ frac ] [ exp ]]; the literal is kept *)
Definition scanNumber (s : string) : scan string :=
  let '(minus, s1) :=
    match s with
    | String "-" rest => ("-", rest)
    | _ => (EmptyString, s)
    end in
  match scanInt s1 with
  | Failed err => Failed err
  | Scanned i s2 =>
      match scanFrac s2 with
      | Failed err => Failed err
      | Scanned f s3 =>
          match scanExp s3 with
          | Failed err => Failed err
          | Scanned e s4 => Scanned (minus +:+ i +:+ f +:+ e) s4
          end
      end
  end.

(** the rest of a literal name ([true], [false], [null]) *)
Fixpoint scanName (name s : string) : scan unit :=
  match name with
  | EmptyString => Scanned tt s
  | String n name' =>
      match s with
      | EmptyString => Failed io_ErrUnexpectedEOF
      | String c rest =>
          if Ascii.eqb c n then scanName name' rest else Failed SyntaxError
      end
  end.

(** storing a member in the map an object decodes to *)
Fixpoint setMember (k : string) (v : value) (members : list (string * value))
  : list (string * value) :=
  match members with
  | [] => [(k, v)]
  | (k', v') :: rest =>
      if String.eqb k k' then (k, v) :: rest
      else (k', v') :: setMember k v rest
  end.

Fixpoint member (k : string) (members : list (string * value)) : option value :=
  match members with
  | [] => None
  | (k', v) :: rest => if String.eqb k k' then Some v else member k rest
  end.

(** [maxNestingDepth] *)
Definition maxNestingDepth : N := 10000.

Fixpoint decodeValue (fuel : nat) (depth : N) (s : string) : scan value :=
  match fuel with
  | O => Failed SyntaxError
  | S n =>
      match skipSpace s with
      | EmptyString => Failed io_ErrUnexpectedEOF
      | String c rest =>
          if Ascii.eqb c "{" then
            if (maxNestingDepth <=? depth)%N then Failed SyntaxError
            else
              match skipSpace rest with
              | String "}" r => Scanned (JObject []) r
              | _ => decodeMembers n (depth + 1)%N rest []
              end
          else if Ascii.eqb c "[" then
            if (maxNestingDepth <=? depth)%N then Failed SyntaxError
            else
              match skipSpace rest with
              | String "]" r => Scanned (JArray []) r
              | _ => decodeElements n (depth + 1)%N rest []
              end
          else if Ascii.eqb c dquote then
            match scanString rest with
            | Scanned t r => Scanned (JString t) r
            | Failed err => Failed err
            end
          else if Ascii.eqb c "t" then
            match scanName "rue" rest with
            | Scanned _ r => Scanned (JBool true) r
            | Failed err => Failed err
            end
          else if Ascii.eqb c "f" then
            match scanName "alse" rest with
            | Scanned _ r => Scanned (JBool false) r
            | Failed err => Failed err
            end
          else if Ascii.eqb c "n" then
            match scanName "ull" rest with
            | Scanned _ r => Scanned JNull r
            | Failed err => Failed err
            end
          else if Ascii.eqb c "-" || isDigit c then
            match scanNumber (String c rest) with
            | Scanned lit r => Scanned (JNumber lit) r
            | Failed err => Failed err
            end
          else Failed SyntaxError
      end
  end
with decodeElements (fuel : nat) (depth : N) (s : string) (acc : list value)
  : scan value :=
  match fuel with
  | O => Failed SyntaxError
  | S n =>
      match decodeValue n depth s with
      | Failed err => Failed err
      | Scanned v r =>
          match skipSpace r with
          | EmptyString => Failed io_ErrUnexpectedEOF
          | String c r' =>
              if Ascii.eqb c "," then decodeElements n depth r' (acc ++ [v])
              else if Ascii.eqb c "]" then Scanned (JArray (acc ++ [v])) r'
              else Failed SyntaxError
          end
      end
  end
with decodeMembers (fuel : nat) (depth : N) (s : string)
  (acc : list (string * value)) : scan value :=
  match fuel with
  | O => Failed SyntaxError
  | S n =>
      match skipSpace s with
      | EmptyString => Failed io_ErrUnexpectedEOF
      | String q r =>
          if negb (Ascii.eqb q dquote) then Failed SyntaxError
          else
            match scanString r with
            | Failed err => Failed err
            | Scanned k r1 =>
                match skipSpace r1 with
                | EmptyString => Failed io_ErrUnexpectedEOF
                | String colon r2 =>
                    if negb (Ascii.eqb colon ":") then Failed SyntaxError
                    else
                      match decodeValue n depth r2 with
                      | Failed err => Failed err
                      | Scanned v r3 =>
                          match skipSpace r3 with
                          | EmptyString => Failed io_ErrUnexpectedEOF
                          | String c r4 =>
                              if Ascii.eqb c "," then
                                decodeMembers n depth r4 (setMember k v acc)
                              else if Ascii.eqb c "}" then
                                Scanned (JObject (setMember k v acc)) r4
                              else Failed SyntaxError
                          end
                      end
                end
            end
      end
  end.

(** [Decoder.Decode]: [io.EOF] when nothing but white space is left,
    otherwise the first value of the input. *)
Definition Decode (src : string) : value + error :=
  match skipSpace src with
  | EmptyString => inr io_EOF
  | _ =>
      match decodeValue (2 * String.length src + 2) 0 src with
      | Scanned v _ => inl v
      | Failed err => inr err
      end
  end.

(** a string literal [s] in quotes, for writing documents *)
Definition quoted (s : string) : string :=
  String dquote (s +:+ String dquote EmptyString).

End json.

(* ===================================================================== *)
(** ** Schema validation ([xeipuuv/gojsonschema])                        *)
(* ===================================================================== *)

(** The part of the validator the extra-specs schema exercises: the
    keywords [type], [properties], [items] and [additionalProperties].
    The validator walks Go maps, so the order in which it reports errors
    is not fixed; here members are visited in document order and every
    statement made about the result is independent of that order. *)

Module gojsonschema.
Import json.

Inductive jsonType : Type :=
| TYPE_ARRAY | TYPE_BOOLEAN | TYPE_INTEGER | TYPE_NUMBER
| TYPE_NULL | TYPE_OBJECT | TYPE_STRING.

Definition typeName (t : jsonType) : string :=
  match t with
  | TYPE_ARRAY => "array"
  | TYPE_BOOLEAN => "boolean"
  | TYPE_INTEGER => "integer"
  | TYPE_NUMBER => "number"
  | TYPE_NULL => "null"
  | TYPE_OBJECT => "object"
  | TYPE_STRING => "string"
  end.

Definition jsonType_eqb (a b : jsonType) : bool :=
  String.eqb (typeName a) (typeName b).

Inductive subSchema : Type :=
| Schema (types : option jsonType)
         (properties : list (string * subSchema))
         (items : option subSchema)
         (additionalProperties : additional)
with additional : Type :=
| apUnset
| apBool (allowed : bool)
| apSchema (s : subSchema).

Definition types (s : subSchema) : option jsonType :=
  let 'Schema t _ _ _ := s in t.
Definition properties (s : subSchema) : list (string * subSchema) :=
  let 'Schema _ p _ _ := s in p.
Definition items (s : subSchema) : option subSchema :=
  let 'Schema _ _ i _ := s in i.
Definition additionalProperties (s : subSchema) : additional :=
  let 'Schema _ _ _ a := s in a.

Fixpoint property (k : string) (props : list (string * subSchema))
  : option subSchema :=
  match props with
  | [] => None
  | (k', s) :: rest => if String.eqb k k' then Some s else property k rest
  end.

(** *** Numbers: [checkJSONInteger] *)

Definition digitValue (c : ascii) : Z := Z.of_nat (nat_of_ascii c) - 48.

Fixpoint digitsToZ (acc : Z) (s : string) : Z :=
  match s with
  | EmptyString => acc
  | String c rest => digitsToZ (10 * acc + digitValue c) rest
  end.

(** the text before and after the first character satisfying [p] *)
Fixpoint cut (p : ascii -> bool) (s : string) : string * string :=
  match s with
  | EmptyString => (EmptyString, EmptyString)
  | String c rest =>
      if p c then (EmptyString, rest)
      else let '(a, b) := cut p rest in (String c a, b)
  end.

Definition unsigned (s : string) : string :=
  match s with
  | String c rest => if Ascii.eqb c "-" || Ascii.eqb c "+" then rest else s
  | EmptyString => s
  end.

Definition exponentOf (e : string) : Z :=
  match e with
  | String "-" d => - digitsToZ 0 d
  | _ => digitsToZ 0 (unsigned e)
  end.

(** [big.Rat.SetString(lit)] followed by [IsInt] *)
Definition checkJSONInteger (lit : string) : bool :=
  let '(mantissa, e) := cut (fun c => Ascii.eqb c "e" || Ascii.eqb c "E") lit in
  let '(i, f) := cut (fun c => Ascii.eqb c ".") (unsigned mantissa) in
  let m := digitsToZ 0 (i +:+ f) in
  let scale := exponentOf e - Z.of_nat (String.length f) in
  (m =? 0) || (0 <=? scale) || (m mod 10 ^ (- scale) =? 0).

(** the JSON type reported as [given] *)
Definition typeOf (v : value) : jsonType :=
  match v with
  | JNull => TYPE_NULL
  | JBool _ => TYPE_BOOLEAN
  | JNumber lit => if checkJSONInteger lit then TYPE_INTEGER else TYPE_NUMBER
  | JString _ => TYPE_STRING
  | JArray _ => TYPE_ARRAY
  | JObject _ => TYPE_OBJECT
  end.

(** does a value pass [type: t] *)
Definition validType (t : jsonType) (v : value) : bool :=
  match v with
  | JNumber lit =>
      jsonType_eqb t TYPE_NUMBER
      || (checkJSONInteger lit && jsonType_eqb t TYPE_INTEGER)
  | _ => jsonType_eqb t (typeOf v)
  end.

(** *** Results *)

(** an error and the path of the value it is about, below the root *)
Record ResultError : Type := {
  context : list string;
  description : string
}.

Fixpoint join (sep : string) (l : list string) : string :=
  match l with
  | [] => EmptyString
  | [x] => x
  | x :: rest => x +:+ sep +:+ join sep rest
  end.

(** [Field()]: the context without its ["(root)."] prefix *)
Definition Field (e : ResultError) : string :=
  match context e with
  | [] => "(root)"
  | path => join "." path
  end.

(** [String()], from the locale's ["{{.field}}: {{.description}}"] *)
Definition String_ (e : ResultError) : string :=
  Field e +:+ ": " +:+ description e.

Definition InvalidTypeError (ctx : list string) (expected given : jsonType)
  : ResultError :=
  {| context := ctx;
     description := "Invalid type. Expected: " +:+ typeName expected
                    +:+ ", given: " +:+ typeName given |}.

Definition AdditionalPropertyNotAllowedError (ctx : list string)
  (property : string) : ResultError :=
  {| context := ctx;
     description := "Additional property " +:+ property +:+ " is not allowed" |}.

Definition Itoa (i : nat) : string := pretty i.

(** [validateRecursive]: the type check first, which ends the visit of a
    value of the wrong type; then the elements of an array against
    [items], and the members of an object against [properties] or, for
    a member that has no property, against [additionalProperties]. *)
Fixpoint validateRecursive (s : subSchema) (ctx : list string) (node : value)
  {struct node} : list ResultError :=
  let typed :=
    match types s with
    | Some t => validType t node
    | None => true
    end in
  if negb typed then
    match types s with
    | Some t => [InvalidTypeError ctx t (typeOf node)]
    | None => []
    end
  else
    match node with
    | JArray elems =>
        match items s with
        | None => []
        | Some it =>
            (fix each (i : nat) (l : list value) : list ResultError :=
               match l with
               | [] => []
               | v :: l' =>
                   (validateRecursive it (ctx ++ [Itoa i]) v ++ each (S i) l')%list
               end) O elems
        end
    | JObject members =>
        (fix each (l : list (string * value)) : list ResultError :=
           match l with
           | [] => []
           | (k, v) :: l' =>
               (match property k (properties s) with
                | Some ps => validateRecursive ps (ctx ++ [k]) v
                | None =>
                    match additionalProperties s with
                    | apUnset => []
                    | apBool true => []
                    | apBool false => [AdditionalPropertyNotAllowedError ctx k]
                    | apSchema ap => validateRecursive ap (ctx ++ [k]) v
                    end
                end ++ each l')%list
           end) members
    | _ => []
    end.

(** [fmt.Sprintf("%s", result.Errors())] *)
Definition formatErrors (errs : list ResultError) : string :=
  "[" +:+ join " " (map String_ errs) +:+ "]".

(** [result.Valid()] *)
Definition Valid (result : list ResultError) : bool :=
  match result with
  | [] => true
  | _ => false
  end.

(** [gojsonschema.Validate(schemaLoader, NewBytesLoader(document))]:
    the error of the loader, or the errors found in the document. *)
Definition Validate (schema : subSchema) (document : string)
  : list ResultError + error :=
  match Decode document with
  | inr err => inr err
  | inl root => inl (validateRecursive schema [] root)
  end.

End gojsonschema.

(* ===================================================================== *)
(** ** [internal/spec]: extra specs and the runner spec                  *)
(* ===================================================================== *)

Module spec.
Import json gojsonschema params config.

(** [float32] fields are carried by binary64 floats, of which every
    binary32 value is one; the program only copies them and compares
    them with zero, which agrees in both formats. [int64] is [Z]. *)
Definition defaultMemoryAllocation : float := 4%float.
Definition defaultOcpusAllocation : float := 1%float.
Definition defaultBootVolumeSize : Z := 255.

(** [cloudconfig.CloudConfigSpec], embedded in [extraSpecs] *)
Record CloudConfigSpec : Type := {
  RunnerInstallTemplate : string;
  PreInstallScripts : gmap string string;
  ExtraContext : gmap string string
}.

Record extraSpecs : Type := {
  es_Ocpus : float;
  es_MemoryInGBs : float;
  es_BootVolumeSize : Z;
  es_SSHPublicKeys : list string;
  es_DisableUpdates : bool;
  es_EnableBootDebug : bool;
  es_ExtraPackages : list string;
  es_CloudConfigSpec : CloudConfigSpec
}.

(** [&extraSpecs{}] *)
Definition extraSpecs_zero : extraSpecs :=
  {| es_Ocpus := 0%float; es_MemoryInGBs := 0%float; es_BootVolumeSize := 0;
     es_SSHPublicKeys := []; es_DisableUpdates := false;
     es_EnableBootDebug := false; es_ExtraPackages := [];
     es_CloudConfigSpec :=
       {| RunnerInstallTemplate := EmptyString; PreInstallScripts := ∅;
          ExtraContext := ∅ |} |}.

Definition typed (t : jsonType) : subSchema := Schema (Some t) [] None apUnset.
Definition arrayOf (t : jsonType) : subSchema :=
  Schema (Some TYPE_ARRAY) [] (Some (typed t)) apUnset.
Definition objectOf (t : jsonType) : subSchema :=
  Schema (Some TYPE_OBJECT) [] None (apSchema (typed t)).

(** [generateJSONSchema]: the schema the reflector derives from the
    fields of [extraSpecs] and their [json] tags, with
    [AllowAdditionalProperties: false].  Every field is [omitempty], so
    none is required; [float32] reflects to [number], [int64] to
    [integer], [bool] to [boolean], [[]string] to an array of strings,
    [[]byte] to a string and a map to an object whose members have the
    type of the map's elements. *)
Definition generateJSONSchema : subSchema :=
  Schema (Some TYPE_OBJECT)
    [ ("ocpus", typed TYPE_NUMBER);
      ("memory_in_gbs", typed TYPE_NUMBER);
      ("boot_volume_size", typed TYPE_INTEGER);
      ("ssh_public_keys", arrayOf TYPE_STRING);
      ("disable_updates", typed TYPE_BOOLEAN);
      ("enable_boot_debug", typed TYPE_BOOLEAN);
      ("extra_packages", arrayOf TYPE_STRING);
      ("runner_install_template", typed TYPE_STRING);
      ("pre_install_scripts", objectOf TYPE_STRING);
      ("extra_context", objectOf TYPE_STRING) ]
    None (apBool false).

Definition jsonSchemaValidation (schema : string) : option error :=
  let jsonSchema := generateJSONSchema in
  match Validate jsonSchema schema with
  | inr err => Some (Errorf_w "failed to validate schema: " err)
  | inl result =>
      if negb (Valid result)
      then Some (Errorf_s "schema validation failed: " (formatErrors result))
      else None
  end.

Record RunnerSpec : Type := {
  rs_AvailabilityDomain : string;
  CompartmentID : string;
  rs_SubnetID : string;
  rs_NsgID : string;
  BootVolumeSize : Z;
  UserData : string;
  ControllerID : string;
  Ocpus : float;
  MemoryInGBs : float;
  SSHPublicKeys : list string;
  DisableUpdates : bool;
  ExtraPackages : list string;
  EnableBootDebug : bool;
  rs_Tools : RunnerApplicationDownload;
  BootstrapParams : BootstrapInstance
}.

(** field assignments [r.F = v] *)
Definition set_Ocpus (r : RunnerSpec) (v : float) : RunnerSpec :=
  {| rs_AvailabilityDomain := rs_AvailabilityDomain r; CompartmentID := CompartmentID r;
     rs_SubnetID := rs_SubnetID r; rs_NsgID := rs_NsgID r;
     BootVolumeSize := BootVolumeSize r; UserData := UserData r;
     ControllerID := ControllerID r; Ocpus := v; MemoryInGBs := MemoryInGBs r;
     SSHPublicKeys := SSHPublicKeys r; DisableUpdates := DisableUpdates r;
     ExtraPackages := ExtraPackages r; EnableBootDebug := EnableBootDebug r;
     rs_Tools := rs_Tools r; BootstrapParams := BootstrapParams r |}.

Definition set_MemoryInGBs (r : RunnerSpec) (v : float) : RunnerSpec :=
  {| rs_AvailabilityDomain := rs_AvailabilityDomain r; CompartmentID := CompartmentID r;
     rs_SubnetID := rs_SubnetID r; rs_NsgID := rs_NsgID r;
     BootVolumeSize := BootVolumeSize r; UserData := UserData r;
     ControllerID := ControllerID r; Ocpus := Ocpus r; MemoryInGBs := v;
     SSHPublicKeys := SSHPublicKeys r; DisableUpdates := DisableUpdates r;
     ExtraPackages := ExtraPackages r; EnableBootDebug := EnableBootDebug r;
     rs_Tools := rs_Tools r; BootstrapParams := BootstrapParams r |}.

Definition set_BootVolumeSize (r : RunnerSpec) (v : Z) : RunnerSpec :=
  {| rs_AvailabilityDomain := rs_AvailabilityDomain r; CompartmentID := CompartmentID r;
     rs_SubnetID := rs_SubnetID r; rs_NsgID := rs_NsgID r;
     BootVolumeSize := v; UserData := UserData r;
     ControllerID := ControllerID r; Ocpus := Ocpus r; MemoryInGBs := MemoryInGBs r;
     SSHPublicKeys := SSHPublicKeys r; DisableUpdates := DisableUpdates r;
     ExtraPackages := ExtraPackages r; EnableBootDebug := EnableBootDebug r;
     rs_Tools := rs_Tools r; BootstrapParams := BootstrapParams r |}.

Definition set_SSHPublicKeys (r : RunnerSpec) (v : list string) : RunnerSpec :=
  {| rs_AvailabilityDomain := rs_AvailabilityDomain r; CompartmentID := CompartmentID r;
     rs_SubnetID := rs_SubnetID r; rs_NsgID := rs_NsgID r;
     BootVolumeSize := BootVolumeSize r; UserData := UserData r;
     ControllerID := ControllerID r; Ocpus := Ocpus r; MemoryInGBs := MemoryInGBs r;
     SSHPublicKeys := v; DisableUpdates := DisableUpdates r;
     ExtraPackages := ExtraPackages r; EnableBootDebug := EnableBootDebug r;
     rs_Tools := rs_Tools r; BootstrapParams := BootstrapParams r |}.

Definition set_DisableUpdates (r : RunnerSpec) (v : bool) : RunnerSpec :=
  {| rs_AvailabilityDomain := rs_AvailabilityDomain r; CompartmentID := CompartmentID r;
     rs_SubnetID := rs_SubnetID r; rs_NsgID := rs_NsgID r;
     BootVolumeSize := BootVolumeSize r; UserData := UserData r;
     ControllerID := ControllerID r; Ocpus := Ocpus r; MemoryInGBs := MemoryInGBs r;
     SSHPublicKeys := SSHPublicKeys r; DisableUpdates := v;
     ExtraPackages := ExtraPackages r; EnableBootDebug := EnableBootDebug r;
     rs_Tools := rs_Tools r; BootstrapParams := BootstrapParams r |}.

Definition set_EnableBootDebug (r : RunnerSpec) (v : bool) : RunnerSpec :=
  {| rs_AvailabilityDomain := rs_AvailabilityDomain r; CompartmentID := CompartmentID r;
     rs_SubnetID := rs_SubnetID r; rs_NsgID := rs_NsgID r;
     BootVolumeSize := BootVolumeSize r; UserData := UserData r;
     ControllerID := ControllerID r; Ocpus := Ocpus r; MemoryInGBs := MemoryInGBs r;
     SSHPublicKeys := SSHPublicKeys r; DisableUpdates := DisableUpdates r;
     ExtraPackages := ExtraPackages r; EnableBootDebug := v;
     rs_Tools := rs_Tools r; BootstrapParams := BootstrapParams r |}.

Definition set_UserData (r : RunnerSpec) (v : string) : RunnerSpec :=
  {| rs_AvailabilityDomain := rs_AvailabilityDomain r; CompartmentID := CompartmentID r;
     rs_SubnetID := rs_SubnetID r; rs_NsgID := rs_NsgID r;
     BootVolumeSize := BootVolumeSize r; UserData := v;
     ControllerID := ControllerID r; Ocpus := Ocpus r; MemoryInGBs := MemoryInGBs r;
     SSHPublicKeys := SSHPublicKeys r; DisableUpdates := DisableUpdates r;
     ExtraPackages := ExtraPackages r; EnableBootDebug := EnableBootDebug r;
     rs_Tools := rs_Tools r; BootstrapParams := BootstrapParams r |}.

(** [x > 0] on a [float32] (false on NaN) and on an [int64] *)
Definition positive32 (x : float) : bool := PrimFloat.ltb 0%float x.
Definition positive64 (x : Z) : bool := 0 <? x.

Definition MergeExtraSpecs (r : RunnerSpec) (extraSpecs : extraSpecs) : RunnerSpec :=
  let r := set_Ocpus r defaultOcpusAllocation in
  let r := if positive32 (es_Ocpus extraSpecs)
           then set_Ocpus r (es_Ocpus extraSpecs) else r in
  let r := set_MemoryInGBs r defaultMemoryAllocation in
  let r := if positive32 (es_MemoryInGBs extraSpecs)
           then set_MemoryInGBs r (es_MemoryInGBs extraSpecs) else r in
  let r := set_BootVolumeSize r defaultBootVolumeSize in
  let r := if positive64 (es_BootVolumeSize extraSpecs)
           then set_BootVolumeSize r (es_BootVolumeSize extraSpecs) else r in
  let r := if (0 <? length (es_SSHPublicKeys extraSpecs))%nat
           then set_SSHPublicKeys r (es_SSHPublicKeys extraSpecs) else r in
  let r := if es_DisableUpdates extraSpecs
           then set_DisableUpdates r (es_DisableUpdates extraSpecs) else r in
  let r := if es_EnableBootDebug extraSpecs
           then set_EnableBootDebug r (es_EnableBootDebug extraSpecs) else r in
  r.

Section Builder.

(** The collaborators of the builder: [json.Unmarshal] into an
    [extraSpecs], the tool resolver held by the package variable
    [DefaultToolFetch] (by default [util.GetTools]),
    [cloudconfig.GetCloudConfig] and [base64.StdEncoding.EncodeToString].
    A Go function that returns either a value and a nil error or a nil
    value and an error, on every path, has a sum as its result. *)
Variable Unmarshal : string -> extraSpecs -> extraSpecs * option error.
Variable DefaultToolFetch :
  OSType -> OSArch -> list RunnerApplicationDownload ->
  RunnerApplicationDownload + error.
Variable GetCloudConfig :
  BootstrapInstance -> RunnerApplicationDownload -> string -> string + error.
Variable EncodeToString : string -> string.

Definition newExtraSpecsFromBootstrapData (data : BootstrapInstance)
  : extraSpecs + error :=
  let spec := extraSpecs_zero in
  match jsonSchemaValidation (ExtraSpecs data) with
  | Some err => inr (Errorf_w "failed to validate extra specs: " err)
  | None =>
      if (0 <? String.length (ExtraSpecs data))%nat then
        match Unmarshal (ExtraSpecs data) spec with
        | (_, Some err) => inr (Errorf_w "failed to unmarshal extra specs: " err)
        | (spec, None) => inl spec
        end
      else inl spec
  end.

Definition ComposeUserData (r : RunnerSpec) : string + error :=
  let bootstrapParams := BootstrapParams r in
  let bootstrapParams :=
    {| bi_Name := bi_Name bootstrapParams; Tools := Tools bootstrapParams;
       bi_OSArch := bi_OSArch bootstrapParams;
       bi_OSType := bi_OSType bootstrapParams;
       Flavor := Flavor bootstrapParams; Image := Image bootstrapParams;
       PoolID := PoolID bootstrapParams;
       ExtraSpecs := ExtraSpecs bootstrapParams;
       bi_UserDataOptions :=
         {| DisableUpdatesOnBoot := DisableUpdates r;
            udo_ExtraPackages := ExtraPackages r;
            udo_EnableBootDebug := EnableBootDebug r |} |} in
  if String.eqb (bi_OSType (BootstrapParams r)) Linux
     || String.eqb (bi_OSType (BootstrapParams r)) Windows
  then
    match GetCloudConfig bootstrapParams (rs_Tools r) (bi_Name bootstrapParams) with
    | inr err => inr (Errorf_w "failed to generate userdata: " err)
    | inl udata => inl udata
    end
  else
    inr (Errorf_s "unsupported OS type for cloud config: "
                  (bi_OSType bootstrapParams)).

(** [SetUserData]: the receiver after the call, and the error.  The mutex
    it holds meanwhile has no effect on a single caller. *)
Definition SetUserData (r : RunnerSpec) : RunnerSpec * option error :=
  match ComposeUserData r with
  | inr err => (r, Some (Errorf_w "failed to compose userdata: " err))
  | inl customData =>
      if (String.length customData =? 0)%nat
      then (r, Some (errorString "failed to generate custom data"))
      else
        let asBase64 := EncodeToString customData in
        (set_UserData r asBase64, None)
  end.

Definition GetRunnerSpecFromBootstrapParams (cfg : Config)
  (data : BootstrapInstance) (controllerID : string) : RunnerSpec + error :=
  match DefaultToolFetch (bi_OSType data) (bi_OSArch data) (Tools data) with
  | inr err => inr (Errorf_s "failed to get tools: " (Error err))
  | inl tools =>
      match newExtraSpecsFromBootstrapData data with
      | inr err => inr (Errorf_w "error loading extra specs: " err)
      | inl extraSpecs =>
          let spec :=
            {| rs_AvailabilityDomain := AvailabilityDomain cfg;
               CompartmentID := CompartmentId cfg;
               rs_SubnetID := SubnetID cfg;
               rs_NsgID := NsgID cfg;
               BootVolumeSize := 0;
               UserData := EmptyString;
               ControllerID := controllerID;
               Ocpus := 0%float;
               MemoryInGBs := 0%float;
               SSHPublicKeys := [];
               DisableUpdates := false;
               ExtraPackages := es_ExtraPackages extraSpecs;
               EnableBootDebug := false;
               rs_Tools := tools;
               BootstrapParams := data |} in
          let spec := MergeExtraSpecs spec extraSpecs in
          match SetUserData spec with
          | (_, Some err) => inr (Errorf_w "error setting extra specs: " err)
          | (spec, None) => inl spec
          end
      end
  end.

End Builder.

End spec.

(* ===================================================================== *)
(** ** [internal/client]: the compute client and the resolver            *)
(* ===================================================================== *)

(** [ClientInterface]: the five calls of the compute service.  Each
    returns its response or an error and may change the service. *)
Module compute.
Import core.

Class ClientInterface (W : Type) : Type := {
  LaunchInstance :
    LaunchInstanceRequest -> W -> (LaunchInstanceResponse + error) * W;
  GetInstance :
    GetInstanceRequest -> W -> (GetInstanceResponse + error) * W;
  TerminateInstance :
    TerminateInstanceRequest -> W -> option error * W;
  ListInstances :
    ListInstancesRequest -> W -> (ListInstancesResponse + error) * W;
  InstanceAction :
    InstanceActionRequest -> W -> option error * W
}.

End compute.

Module client.
Import core config spec params.

Record OciCli : Type := { cfg : Config }.

Section Client.
Context {W : Type} {computeClient : compute.ClientInterface W}.

Definition newline : string := String "010" EmptyString.

(** the request [CreateInstance] builds from a runner spec *)
Definition launchRequest (spec : RunnerSpec) : LaunchInstanceRequest :=
  {| lir_LaunchInstanceDetails :=
       {| lid_CompartmentId := CompartmentID spec;
          lid_AvailabilityDomain := rs_AvailabilityDomain spec;
          lid_DisplayName := bi_Name (BootstrapParams spec);
          lid_Shape := Flavor (BootstrapParams spec);
          lid_SubnetId := rs_SubnetID spec;
          lid_NsgIds := [rs_NsgID spec];
          lid_Ocpus := Ocpus spec;
          lid_MemoryInGBs := MemoryInGBs spec;
          lid_FreeformTags :=
            {[ "Name" := bi_Name (BootstrapParams spec);
               "GARM_POOL_ID" := PoolID (BootstrapParams spec);
               "OSType" := bi_OSType (BootstrapParams spec);
               "OSArch" := bi_OSArch (BootstrapParams spec);
               "GARM_CONTROLLER_ID" := ControllerID spec ]};
          lid_Metadata :=
            {[ "user_data" := UserData spec;
               "ssh_authorized_keys" :=
                 gojsonschema.join newline (SSHPublicKeys spec) ]};
          lid_ImageId := Image (BootstrapParams spec);
          lid_BootVolumeSizeInGBs := BootVolumeSize spec |} |}.

Definition CreateInstance (o : OciCli) (spec : RunnerSpec)
  : Cloud W (Instance + error) :=
  let req := launchRequest spec in
  response ← call (compute.LaunchInstance req);
  match response with
  | inr err => mret (inr (Errorf_w "error creating instance: " err))
  | inl response => mret (inl (lir_Instance response))
  end.

(** does the instance carry every tag of the constraint set; the loop over
    [tags] leaves at the first tag that differs, so the order in which the
    map is walked does not show *)
Definition tagsMatch (tags : gmap string string) (instance : Instance) : bool :=
  forallb (fun kv => String.eqb (index (FreeformTags instance) (fst kv)) (snd kv))
          (map_to_list tags).

(** the loop of [FindInstanceByTags] over [computeInstances.Items] *)
Fixpoint findInItems (tags : gmap string string) (items : list Instance)
  : option Instance * option error :=
  match items with
  | [] => (None, None)
  | instance :: rest =>
      if negb (String.eqb (LifecycleState instance) InstanceLifecycleStateTerminated)
      then
        if tagsMatch tags instance
        then (Some instance, None)
        else (None, None)
      else findInItems tags rest
  end.

Definition FindInstanceByTags (o : OciCli) (tags : gmap string string)
  : Cloud W (option Instance * option error) :=
  let request := {| lsr_CompartmentId := CompartmentId (cfg o) |} in
  computeInstances ← call (compute.ListInstances request);
  match computeInstances with
  | inr err => mret (None, Some (Errorf_w "error listing instances: " err))
  | inl computeInstances => mret (findInItems tags (Items computeInstances))
  end.

Definition HasPrefix (s prefix : string) : bool := String.prefix prefix s.

(** the point lookup at the end of [GetInstance] *)
Definition getById (inst : string) : Cloud W (Instance + error) :=
  let req := {| gir_InstanceId := inst |} in
  resp ← call (compute.GetInstance req);
  match resp with
  | inr err => mret (inr (Errorf_w "error getting instance: " err))
  | inl resp => mret (inl (gir_Instance resp))
  end.

Definition GetInstance (o : OciCli) (instanceID : string)
  : Cloud W (Instance + error) :=
  if HasPrefix instanceID "ocid1.instance" then getById instanceID
  else
    let tags : gmap string string := {[ "Name" := instanceID ]} in
    '(tmp, err) ← FindInstanceByTags o tags;
    match err with
    | Some err =>
        if Is err ErrNotFound
        then mret (inr (errorString "instance not found"))
        else mret (inr (Errorf_w "failed to determine instance: " err))
    | None =>
        tmp ← deref tmp;
        inst ← deref (Id tmp);
        getById inst
    end.

(** the termination request at the end of [DeleteInstance] *)
Definition terminateById (inst : string) : Cloud W (option error) :=
  let request := {| tir_InstanceId := inst |} in
  err ← call (compute.TerminateInstance request);
  match err with
  | Some err => mret (Some (Errorf_w "error terminating instance: " err))
  | None => mret None
  end.

Definition DeleteInstance (o : OciCli) (instanceID : string)
  : Cloud W (option error) :=
  if HasPrefix instanceID "ocid1.instance" then terminateById instanceID
  else
    let tags : gmap string string := {[ "Name" := instanceID ]} in
    '(tmp, err) ← FindInstanceByTags o tags;
    match err with
    | Some err =>
        if Is err ErrNotFound
        then mret None
        else mret (Some (Errorf_w "failed to determine instance: " err))
    | None =>
        tmp ← deref tmp;
        inst ← deref (Id tmp);
        terminateById inst
    end.

Definition ListInstances (o : OciCli) (poolID : string)
  : Cloud W (list Instance + error) :=
  let request := {| lsr_CompartmentId := CompartmentId (cfg o) |} in
  computeInstances ← call (compute.ListInstances request);
  match computeInstances with
  | inr err => mret (inr (Errorf_w "error listing instances: " err))
  | inl computeInstances =>
      mret (inl (filter
        (fun instance =>
           String.eqb (index (FreeformTags instance) "GARM_POOL_ID") poolID
           && negb (String.eqb (LifecycleState instance)
                               InstanceLifecycleStateTerminated) = true)
        (Items computeInstances)))
  end.

Definition StopInstance (o : OciCli) (instanceID : string)
  : Cloud W (option error) :=
  let req := {| iar_InstanceId := instanceID;
                iar_Action := InstanceActionActionStop |} in
  err ← call (compute.InstanceAction req);
  match err with
  | Some err => mret (Some (Errorf_w "error stopping instance: " err))
  | None => mret None
  end.

Definition StartInstance (o : OciCli) (instanceID : string)
  : Cloud W (option error) :=
  let req := {| iar_InstanceId := instanceID;
                iar_Action := InstanceActionActionStart |} in
  err ← call (compute.InstanceAction req);
  match err with
  | Some err => mret (Some (Errorf_w "error starting instance: " err))
  | None => mret None
  end.

End Client.

End client.

(* ===================================================================== *)
(** ** [provider]: the operations offered to the orchestrator            *)
(* ===================================================================== *)

Module provider.
Import core config spec params.

Record OciProvider : Type := {
  cfg : Config;
  ociCli : client.OciCli;
  controllerID : string
}.

Section Provider.
Context {W : Type} {computeClient : compute.ClientInterface W}.
Variable Unmarshal : string -> extraSpecs -> extraSpecs * option error.
Variable DefaultToolFetch :
  OSType -> OSArch -> list RunnerApplicationDownload ->
  RunnerApplicationDownload + error.
Variable GetCloudConfig :
  BootstrapInstance -> RunnerApplicationDownload -> string -> string + error.
Variable EncodeToString : string -> string.

(** a computation that touches no remote state *)
Definition local {A} (x : exec A) : Cloud W A := fun w => (x, w).

Definition CreateInstance (o : OciProvider) (bootstrapParams : BootstrapInstance)
  : Cloud W (ProviderInstance + error) :=
  match GetRunnerSpecFromBootstrapParams Unmarshal DefaultToolFetch
          GetCloudConfig EncodeToString (cfg o) bootstrapParams (controllerID o) with
  | inr err => mret (inr (Errorf_w "error getting runner spec: " err))
  | inl spec =>
      ociInstance ← client.CreateInstance (ociCli o) spec;
      match ociInstance with
      | inr err => mret (inr (Errorf_w "error creating instance: " err))
      | inl ociInstance =>
          id ← deref (Id ociInstance);
          let instance :=
            {| ProviderID := id;
               Name := bi_Name (BootstrapParams spec);
               OSType_ := bi_OSType (BootstrapParams spec);
               OSArch_ := bi_OSArch (BootstrapParams spec);
               Status := "running" |} in
          mret (inl instance)
      end
  end.

Definition GetInstance (o : OciProvider) (instanceID : string)
  : Cloud W (ProviderInstance + error) :=
  ociInstance ← client.GetInstance (ociCli o) instanceID;
  match ociInstance with
  | inr err => mret (inr (Errorf_w "error getting instance: " err))
  | inl ociInstance =>
      providerInstance ← local (util.OciInstanceToProviderInstance ociInstance);
      mret (inl providerInstance)
  end.

Definition DeleteInstance (o : OciProvider) (instanceID : string)
  : Cloud W (option error) :=
  client.DeleteInstance (ociCli o) instanceID.

(** the loop of [ListInstances] that normalises each record *)
Fixpoint normaliseAll (ociInstances : list Instance)
  (providerInstances : list ProviderInstance) : Cloud W (list ProviderInstance) :=
  match ociInstances with
  | [] => mret providerInstances
  | ociInstance :: rest =>
      p ← local (util.OciInstanceToProviderInstance ociInstance);
      normaliseAll rest (providerInstances ++ [p])%list
  end.

Definition ListInstances (o : OciProvider) (poolID : string)
  : Cloud W (list ProviderInstance + error) :=
  ociInstances ← client.ListInstances (ociCli o) poolID;
  match ociInstances with
  | inr err => mret (inr (Errorf_w "error listing instances: " err))
  | inl ociInstances =>
      providerInstances ← normaliseAll ociInstances [];
      mret (inl providerInstances)
  end.

Definition RemoveAllInstances (o : OciProvider) : Cloud W (option error) :=
  mret None.

Definition Stop (o : OciProvider) (instance : string) (force : bool)
  : Cloud W (option error) :=
  client.StopInstance (ociCli o) instance.

Definition Start (o : OciProvider) (instance : string)
  : Cloud W (option error) :=
  client.StartInstance (ociCli o) instance.

End Provider.

End provider.

(* ===================================================================== *)
(** ** An in-memory compute service                                      *)
(* ===================================================================== *)

(** A compute service that keeps its instances in a list, in the order it
    lists them: the stand-in for the remote service on concrete runs. *)
Module memory.
Import core.

Definition World : Type := list Instance.

Definition hasId (id : string) (i : Instance) : bool :=
  match Id i with
  | Some x => String.eqb x id
  | None => false
  end.

Definition withState (st : InstanceLifecycleStateEnum) (i : Instance) : Instance :=
  {| Id := Id i; DisplayName := DisplayName i;
     FreeformTags := FreeformTags i; LifecycleState := st |}.

Definition setState (id : string) (st : InstanceLifecycleStateEnum) (w : World)
  : World :=
  map (fun i => if hasId id i then withState st i else i) w.

Definition notFound : error := errorString "Service error:NotAuthorizedOrNotFound".

Definition launched (w : World) (d : LaunchInstanceDetails) : Instance :=
  {| Id := Some ("ocid1.instance.oc1.." +:+ pretty (length w));
     DisplayName := Some (lid_DisplayName d);
     FreeformTags := lid_FreeformTags d;
     LifecycleState := InstanceLifecycleStateProvisioning |}.

#[global] Instance service : compute.ClientInterface World := {|
  compute.LaunchInstance req w :=
    let i := launched w (lir_LaunchInstanceDetails req) in
    (inl {| lir_Instance := i |}, (w ++ [i])%list);
  compute.GetInstance req w :=
    match List.find (hasId (gir_InstanceId req)) w with
    | Some i => (inl {| gir_Instance := i |}, w)
    | None => (inr notFound, w)
    end;
  compute.TerminateInstance req w :=
    if existsb (hasId (tir_InstanceId req)) w
    then (None, setState (tir_InstanceId req) InstanceLifecycleStateTerminating w)
    else (Some notFound, w);
  compute.ListInstances req w := (inl {| Items := w |}, w);
  compute.InstanceAction req w :=
    if existsb (hasId (iar_InstanceId req)) w
    then (None,
          setState (iar_InstanceId req)
            match iar_Action req with
            | InstanceActionActionStop => InstanceLifecycleStateStopping
            | InstanceActionActionStart => InstanceLifecycleStateStarting
            end w)
    else (Some notFound, w)
|}.

(** collaborators of the builder for concrete runs, as the tests of the
    repository replace [DefaultToolFetch] *)
Definition tool : params.RunnerApplicationDownload :=
  {| params.OS := Some "linux"; params.Architecture := Some "amd64";
     params.DownloadURL := Some "MockURL"; params.Filename := Some "garm-runner" |}.

Definition toolFetch (osType : params.OSType) (osArch : params.OSArch)
  (tools : list params.RunnerApplicationDownload)
  : params.RunnerApplicationDownload + error := inl tool.

(** [json.Unmarshal] on a document without members, [{}], which leaves
    the overlay as it is; the concrete runs decode no other document *)
Definition unmarshal (data : string) (s : spec.extraSpecs)
  : spec.extraSpecs * option error := (s, None).

Definition cloudConfig (b : params.BootstrapInstance)
  (t : params.RunnerApplicationDownload) (name : string) : string + error :=
  inl ("#cloud-config for " +:+ name).

Definition encode (s : string) : string := s.

Definition testConfig : config.Config :=
  {| config.AvailabilityDomain := "ad"; config.CompartmentId := "compartment";
     config.SubnetID := "subnet"; config.NsgID := "nsg";
     config.TenancyID := "tenancy"; config.UserID := "user";
     config.Region := "region"; config.Fingerprint := "fingerprint";
     config.PrivateKeyPath := "private_key_path";
     config.PrivateKeyPassword := EmptyString |}.

Definition testCli : client.OciCli := {| client.cfg := testConfig |}.

Definition testProvider : provider.OciProvider :=
  {| provider.cfg := testConfig; provider.ociCli := testCli;
     provider.controllerID := "controller" |}.

(** the bootstrap request of the end-to-end example: a Linux runner [r1]
    with the empty object as its extra specs *)
Definition request : params.BootstrapInstance :=
  {| params.bi_Name := "r1"; params.Tools := [ tool ];
     params.bi_OSArch := params.Amd64; params.bi_OSType := params.Linux;
     params.Flavor := "VM.Standard.E4.Flex"; params.Image := "image";
     params.PoolID := "my-pool"; params.ExtraSpecs := "{}";
     params.bi_UserDataOptions :=
       {| params.DisableUpdatesOnBoot := false;
          params.udo_ExtraPackages := [];
          params.udo_EnableBootDebug := false |} |}.

End memory.

(* ===================================================================== *)
(** ** Earlier revisions of [internal/spec/spec.go]                      *)
(* ===================================================================== *)

(** The sources carry two earlier revisions of [spec.go] next to the
    current one embedded in [spec] above.  Where they differ from it in
    what the theorems below are about, they are embedded here. *)

(** The revision with a hand-written schema and [*bool] toggles. *)
Module spec_r2.
Import spec.

Record extraSpecs : Type := {
  es_Ocpus : float;
  es_MemoryInGBs : float;
  es_BootVolumeSize : Z;
  es_SSHPublicKeys : list string;
  es_DisableUpdates : option bool;
  es_EnableBootDebug : option bool;
  es_ExtraPackages : list string
}.

Definition MergeExtraSpecs (r : RunnerSpec) (extraSpecs : extraSpecs) : RunnerSpec :=
  let r := set_Ocpus r defaultOcpusAllocation in
  let r := if positive32 (es_Ocpus extraSpecs)
           then set_Ocpus r (es_Ocpus extraSpecs) else r in
  let r := set_MemoryInGBs r defaultMemoryAllocation in
  let r := if positive32 (es_MemoryInGBs extraSpecs)
           then set_MemoryInGBs r (es_MemoryInGBs extraSpecs) else r in
  let r := set_BootVolumeSize r defaultBootVolumeSize in
  let r := if positive64 (es_BootVolumeSize extraSpecs)
           then set_BootVolumeSize r (es_BootVolumeSize extraSpecs) else r in
  let r := if (0 <? length (es_SSHPublicKeys extraSpecs))%nat
           then set_SSHPublicKeys r (es_SSHPublicKeys extraSpecs) else r in
  let r := match es_DisableUpdates extraSpecs with
           | Some b => set_DisableUpdates r b
           | None => r
           end in
  let r := match es_EnableBootDebug extraSpecs with
           | Some b => set_EnableBootDebug r b
           | None => r
           end in
  r.

End spec_r2.

(** The first revision: four extra specs, [util.GetTools] called
    directly, and the result of [SetUserData] not looked at. *)
Module spec_r1.
Import json gojsonschema params config spec.

Definition jsonSchema : subSchema :=
  Schema (Some TYPE_OBJECT)
    [ ("ocpus", typed TYPE_NUMBER);
      ("memory_in_gbs", typed TYPE_NUMBER);
      ("boot_volume_size", typed TYPE_NUMBER);
      ("ssh_public_keys", arrayOf TYPE_STRING) ]
    None (apBool false).

Definition jsonSchemaValidation (schema : string) : option error :=
  match Validate jsonSchema schema with
  | inr err => Some (Errorf_w "failed to validate schema: " err)
  | inl result =>
      if negb (Valid result)
      then Some (Errorf_s "schema validation failed: " (formatErrors result))
      else None
  end.

Record extraSpecs : Type := {
  es_Ocpus : float;
  es_MemoryInGBs : float;
  es_BootVolumeSize : Z;
  es_SSHPublicKeys : list string
}.

Definition extraSpecs_zero : extraSpecs :=
  {| es_Ocpus := 0%float; es_MemoryInGBs := 0%float; es_BootVolumeSize := 0;
     es_SSHPublicKeys := [] |}.

Definition MergeExtraSpecs (r : RunnerSpec) (extraSpecs : extraSpecs) : RunnerSpec :=
  let r := set_Ocpus r defaultOcpusAllocation in
  let r := if positive32 (es_Ocpus extraSpecs)
           then set_Ocpus r (es_Ocpus extraSpecs) else r in
  let r := set_MemoryInGBs r defaultMemoryAllocation in
  let r := if positive32 (es_MemoryInGBs extraSpecs)
           then set_MemoryInGBs r (es_MemoryInGBs extraSpecs) else r in
  let r := set_BootVolumeSize r defaultBootVolumeSize in
  let r := if positive64 (es_BootVolumeSize extraSpecs)
           then set_BootVolumeSize r (es_BootVolumeSize extraSpecs) else r in
  let r := if (0 <? length (es_SSHPublicKeys extraSpecs))%nat
           then set_SSHPublicKeys r (es_SSHPublicKeys extraSpecs) else r in
  r.

Section Builder.
Variable Unmarshal : string -> extraSpecs -> extraSpecs * option error.
Variable GetTools :
  OSType -> OSArch -> list RunnerApplicationDownload ->
  RunnerApplicationDownload + error.
Variable GetCloudConfig :
  BootstrapInstance -> RunnerApplicationDownload -> string -> string + error.
Variable EncodeToString : string -> string.

Definition newExtraSpecsFromBootstrapData (data : BootstrapInstance)
  : extraSpecs + error :=
  let spec := extraSpecs_zero in
  match jsonSchemaValidation (ExtraSpecs data) with
  | Some err => inr (Errorf_w "failed to validate extra specs: " err)
  | None =>
      if (0 <? String.length (ExtraSpecs data))%nat then
        match Unmarshal (ExtraSpecs data) spec with
        | (_, Some err) => inr (Errorf_w "failed to unmarshal extra specs: " err)
        | (spec, None) => inl spec
        end
      else inl spec
  end.

Definition ComposeUserData (r : RunnerSpec) : string + error :=
  if String.eqb (bi_OSType (BootstrapParams r)) Linux then
    match GetCloudConfig (BootstrapParams r) (rs_Tools r)
            (bi_Name (BootstrapParams r)) with
    | inr err => inr (Errorf_w "failed to generate userdata: " err)
    | inl udata => inl udata
    end
  else if String.eqb (bi_OSType (BootstrapParams r)) Windows then
    match GetCloudConfig (BootstrapParams r) (rs_Tools r)
            (bi_Name (BootstrapParams r)) with
    | inr err => inr (Errorf_w "failed to generate userdata: " err)
    | inl udata => inl udata
    end
  else
    inr (Errorf_s "unsupported OS type for cloud config: "
                  (bi_OSType (BootstrapParams r))).

Definition SetUserData (r : RunnerSpec) : RunnerSpec * option error :=
  match ComposeUserData r with
  | inr err => (r, Some (Errorf_w "failed to compose userdata: " err))
  | inl customData =>
      if (String.length customData =? 0)%nat
      then (r, Some (errorString "failed to generate custom data"))
      else (set_UserData r (EncodeToString customData), None)
  end.

Definition GetRunnerSpecFromBootstrapParams (cfg : Config)
  (data : BootstrapInstance) (controllerID : string) : RunnerSpec + error :=
  match GetTools (bi_OSType data) (bi_OSArch data) (Tools data) with
  | inr err => inr (Errorf_s "failed to get tools: " (Error err))
  | inl tools =>
      match newExtraSpecsFromBootstrapData data with
      | inr err => inr (Errorf_w "error loading extra specs: " err)
      | inl extraSpecs =>
          let spec :=
            {| rs_AvailabilityDomain := AvailabilityDomain cfg;
               CompartmentID := CompartmentId cfg;
               rs_SubnetID := SubnetID cfg;
               rs_NsgID := NsgID cfg;
               BootVolumeSize := 0;
               UserData := EmptyString;
               ControllerID := controllerID;
               Ocpus := 0%float;
               MemoryInGBs := 0%float;
               SSHPublicKeys := [];
               DisableUpdates := false;
               ExtraPackages := [];
               EnableBootDebug := false;
               rs_Tools := tools;
               BootstrapParams := data |} in
          let spec := MergeExtraSpecs spec extraSpecs in
          let '(spec, _) := SetUserData spec in
          inl spec
      end
  end.

End Builder.

End spec_r1.

(* ===================================================================== *)
(** ** Reference definitions and sample data                             *)
(* ===================================================================== *)

Import core params config spec json gojsonschema.

Abbreviation testConfig := memory.testConfig.
Abbreviation testCli := memory.testCli.


Definition terminated (i : Instance) : bool :=
  String.eqb (LifecycleState i) InstanceLifecycleStateTerminated.

(** the constraint set of a lookup by name *)
Definition byName (handle : string) : gmap string string := {[ "Name" := handle ]}.

(** The resolver as the specification words it: the first instance of
    the listing that is not terminated and carries every tag of the
    constraint set. *)
Definition firstMatch (tags : gmap string string) (items : list Instance)
  : option Instance :=
  List.find (fun i => negb (terminated i) && client.tagsMatch tags i) items.


(** the error of a build that reaches the composition of the user data
    with an OS type that is not supported *)
Definition unsupportedOSError (os : OSType) : error :=
  Errorf_w "error setting extra specs: "
    (Errorf_w "failed to compose userdata: "
       (Errorf_s "unsupported OS type for cloud config: " os)).

Definition provisioningInstance : Instance :=
  {| Id := Some "id"; DisplayName := None;
     FreeformTags := {[ "Name" := "name"; "OSType" := "linux"; "OSArch" := "amd64" ]};
     LifecycleState := InstanceLifecycleStateProvisioning |}.

Definition instanceNamed (id name : string) (state : InstanceLifecycleStateEnum)
  : Instance :=
  {| Id := Some id; DisplayName := None;
     FreeformTags := {[ "Name" := name ]}; LifecycleState := state |}.

(** a compartment whose only instance named [my-runner] is terminated *)
Definition goneWorld : memory.World :=
  [ instanceNamed "ocid1.instance.oc1.iad.a" "my-runner"
      InstanceLifecycleStateTerminated ].

(** a compartment with two running instances, the second one named
    [my-runner] *)
Definition otherRunner : Instance :=
  instanceNamed "ocid1.instance.oc1.iad.a" "other-runner"
    InstanceLifecycleStateRunning.

Definition myRunner : Instance :=
  instanceNamed "ocid1.instance.oc1.iad.b" "my-runner"
    InstanceLifecycleStateRunning.

Definition twoRunners : memory.World := [ otherRunner; myRunner ].

(** the examples of the specification: no CPU count, or a count of zero
    or below, gives [1], and [2.5] is kept *)
Definition overlayWithOcpus (x : float) : extraSpecs :=
  {| es_Ocpus := x; es_MemoryInGBs := 0%float; es_BootVolumeSize := 0;
     es_SSHPublicKeys := []; es_DisableUpdates := false;
     es_EnableBootDebug := false; es_ExtraPackages := [];
     es_CloudConfigSpec := es_CloudConfigSpec extraSpecs_zero |}.

(** a runner spec with both toggles set *)
Definition toggledSpec : RunnerSpec :=
  {| rs_AvailabilityDomain := "ad"; CompartmentID := "compartment";
     rs_SubnetID := "subnet"; rs_NsgID := "nsg"; BootVolumeSize := 255;
     UserData := EmptyString; ControllerID := "controller";
     Ocpus := 1%float; MemoryInGBs := 4%float; SSHPublicKeys := [];
     DisableUpdates := true; ExtraPackages := []; EnableBootDebug := true;
     rs_Tools := memory.tool; BootstrapParams := memory.request |}.

(** an overlay that says [disable_updates: false] and nothing else *)
Definition explicitFalse : spec_r2.extraSpecs :=
  {| spec_r2.es_Ocpus := 0%float; spec_r2.es_MemoryInGBs := 0%float;
     spec_r2.es_BootVolumeSize := 0; spec_r2.es_SSHPublicKeys := [];
     spec_r2.es_DisableUpdates := Some false;
     spec_r2.es_EnableBootDebug := None;
     spec_r2.es_ExtraPackages := [] |}.

(** a request for a FreeBSD runner, otherwise the request of [memory] *)
Definition freebsdRequest : BootstrapInstance :=
  {| bi_Name := "r1"; Tools := [ memory.tool ]; bi_OSArch := Amd64;
     bi_OSType := "freebsd"; Flavor := "VM.Standard.E4.Flex";
     Image := "image"; PoolID := "my-pool"; ExtraSpecs := "{}";
     bi_UserDataOptions := bi_UserDataOptions memory.request |}.

(** the request of [memory] without any extra specs *)
Definition bareRequest : BootstrapInstance :=
  {| bi_Name := "r1"; Tools := [ memory.tool ]; bi_OSArch := Amd64;
     bi_OSType := Linux; Flavor := "VM.Standard.E4.Flex";
     Image := "image"; PoolID := "my-pool"; ExtraSpecs := EmptyString;
     bi_UserDataOptions := bi_UserDataOptions memory.request |}.



(** a tool resolver that finds no tools *)
Definition noTools (osType : OSType) (osArch : OSArch)
  (tools : list RunnerApplicationDownload) : RunnerApplicationDownload + error :=
  inr ErrNotFound.

(** an escape sequence, [\] followed by [s], for writing documents *)
Definition escaped (s : string) : string := String backslash s.

(** ** Further sample data *)

Definition poolWorld : memory.World :=
  [ {| Id := Some "ocid1.instance.oc1.iad.a"; DisplayName := None;
       FreeformTags := {[ "Name" := "r1"; "GARM_POOL_ID" := "pool-1" ]};
       LifecycleState := InstanceLifecycleStateRunning |};
    {| Id := Some "ocid1.instance.oc1.iad.b"; DisplayName := None;
       FreeformTags := {[ "Name" := "r2"; "GARM_POOL_ID" := "pool-2" ]};
       LifecycleState := InstanceLifecycleStateRunning |};
    {| Id := Some "ocid1.instance.oc1.iad.c"; DisplayName := None;
       FreeformTags := {[ "Name" := "r3"; "GARM_POOL_ID" := "pool-1" ]};
       LifecycleState := InstanceLifecycleStateTerminated |};
    {| Id := Some "ocid1.instance.oc1.iad.d"; DisplayName := None;
       FreeformTags := {[ "Name" := "r4"; "GARM_POOL_ID" := "pool-1" ]};
       LifecycleState := InstanceLifecycleStateStopped |} ].

(** a compartment whose first instance is terminated and whose second,
    running, is named [my-runner] *)
Definition revivedWorld : memory.World :=
  [ instanceNamed "ocid1.instance.oc1.iad.a" "my-runner"
      InstanceLifecycleStateTerminated;
    myRunner ].

(** a compute service whose every call fails with the same error *)
Definition failing (e : error) : compute.ClientInterface unit := {|
  compute.LaunchInstance _ w := (inr e, w);
  compute.GetInstance _ w := (inr e, w);
  compute.TerminateInstance _ w := (Some e, w);
  compute.ListInstances _ w := (inr e, w);
  compute.InstanceAction _ w := (Some e, w)
|}.

Definition timeout : error := errorString "net/http: request timed out".

(** the in-memory service with a listing call that fails *)
Definition unlistable : compute.ClientInterface memory.World := {|
  compute.LaunchInstance := @compute.LaunchInstance _ memory.service;
  compute.GetInstance := @compute.GetInstance _ memory.service;
  compute.TerminateInstance := @compute.TerminateInstance _ memory.service;
  compute.ListInstances _ w := (inr timeout, w);
  compute.InstanceAction := @compute.InstanceAction _ memory.service
|}.

(** the bootstrap request as [ComposeUserData] hands it to the renderer:
    its user-data options are replaced by those of the runner spec *)
Definition renderedRequest (r : RunnerSpec) : BootstrapInstance :=
  {| bi_Name := bi_Name (BootstrapParams r);
     Tools := Tools (BootstrapParams r);
     bi_OSArch := bi_OSArch (BootstrapParams r);
     bi_OSType := bi_OSType (BootstrapParams r);
     Flavor := Flavor (BootstrapParams r);
     Image := Image (BootstrapParams r);
     PoolID := PoolID (BootstrapParams r);
     ExtraSpecs := ExtraSpecs (BootstrapParams r);
     bi_UserDataOptions :=
       {| DisableUpdatesOnBoot := DisableUpdates r;
          udo_ExtraPackages := ExtraPackages r;
          udo_EnableBootDebug := EnableBootDebug r |} |}.

Definition supportedOS (os : OSType) : Prop := os = Linux \/ os = Windows.

(** the runner spec with other user-data options in its bootstrap
    request *)
Definition withRequestOptions (r : RunnerSpec) (o : UserDataOptions) : RunnerSpec :=
  {| rs_AvailabilityDomain := rs_AvailabilityDomain r;
     CompartmentID := CompartmentID r;
     rs_SubnetID := rs_SubnetID r; rs_NsgID := rs_NsgID r;
     BootVolumeSize := BootVolumeSize r; UserData := UserData r;
     ControllerID := ControllerID r; Ocpus := Ocpus r;
     MemoryInGBs := MemoryInGBs r; SSHPublicKeys := SSHPublicKeys r;
     DisableUpdates := DisableUpdates r; ExtraPackages := ExtraPackages r;
     EnableBootDebug := EnableBootDebug r; rs_Tools := rs_Tools r;
     BootstrapParams :=
       {| bi_Name := bi_Name (BootstrapParams r);
          Tools := Tools (BootstrapParams r);
          bi_OSArch := bi_OSArch (BootstrapParams r);
          bi_OSType := bi_OSType (BootstrapParams r);
          Flavor := Flavor (BootstrapParams r);
          Image := Image (BootstrapParams r);
          PoolID := PoolID (BootstrapParams r);
          ExtraSpecs := ExtraSpecs (BootstrapParams r);
          bi_UserDataOptions := o |} |}.

(** the bootstrap request with other user-data options *)
Definition withOptions (data : BootstrapInstance) (o : UserDataOptions)
  : BootstrapInstance :=
  {| bi_Name := bi_Name data; Tools := Tools data;
     bi_OSArch := bi_OSArch data; bi_OSType := bi_OSType data;
     Flavor := Flavor data; Image := Image data; PoolID := PoolID data;
     ExtraSpecs := ExtraSpecs data; bi_UserDataOptions := o |}.

Definition linuxSpec : RunnerSpec :=
  {| rs_AvailabilityDomain := "ad"; CompartmentID := "compartment";
     rs_SubnetID := "subnet"; rs_NsgID := "nsg"; BootVolumeSize := 255;
     UserData := EmptyString; ControllerID := "controller";
     Ocpus := 1%float; MemoryInGBs := 4%float; SSHPublicKeys := [];
     DisableUpdates := false; ExtraPackages := []; EnableBootDebug := false;
     rs_Tools := memory.tool; BootstrapParams := memory.request |}.

Definition emptyRender (b : BootstrapInstance) (t : RunnerApplicationDownload)
  (name : string) : string + error := inl EmptyString.


(** the record the in-memory service keeps for the launch of [linuxSpec] *)
Definition launchedRunner : Instance :=
  memory.launched [] (lir_LaunchInstanceDetails (client.launchRequest linuxSpec)).

(** a compartment with one running instance that carries no tag *)
Definition untagged : Instance :=
  {| Id := Some "ocid1.instance.oc1.iad.u"; DisplayName := None;
     FreeformTags := ∅; LifecycleState := InstanceLifecycleStateRunning |}.

(* ===================================================================== *)
(** * Theorems                                                           *)
(* ===================================================================== *)

(** ** Running a computation against the service *)

Lemma run_call_bind {W A B} (f : W -> A * W) (k : A -> Cloud W B) (w : W) :
  (call f ≫= k) w = k (f w).1 (f w).2.
Proof.
  unfold mbind, Cloud_bind, call. destruct (f w) as [a w']. reflexivity.
Qed.

Lemma run_ret_bind {W A B} (a : A) (k : A -> Cloud W B) (w : W) :
  (mret a ≫= k) w = k a w.
Proof. reflexivity. Qed.

Lemma run_deref_nil {W A B} (k : A -> Cloud W B) (w : W) :
  (deref None ≫= k) w = (Panic nilDereference, w).
Proof. reflexivity. Qed.

Lemma run_deref_some {W A B} (a : A) (k : A -> Cloud W B) (w : W) :
  (deref (Some a) ≫= k) w = k a w.
Proof. reflexivity. Qed.

(** ** The status mapping *)

Lemma eqb_false_of_ne (a b : string) : a <> b -> String.eqb a b = false.
Proof. intros H. apply String.eqb_neq. exact H. Qed.

Lemma statusOf_other (state : InstanceLifecycleStateEnum) :
  state <> InstanceLifecycleStateRunning ->
  state <> InstanceLifecycleStateStopped ->
  state <> InstanceLifecycleStateTerminated ->
  util.statusOf state = InstanceStatusUnknown.
Proof.
  intros Hr Hs Ht. unfold util.statusOf.
  rewrite (eqb_false_of_ne _ _ Hr), (eqb_false_of_ne _ _ Hs),
    (eqb_false_of_ne _ _ Ht).
  reflexivity.
Qed.

Lemma statusOf_buckets (state : InstanceLifecycleStateEnum) :
  util.statusOf state = InstanceRunning
  \/ util.statusOf state = InstanceStopped
  \/ util.statusOf state = InstanceStatusUnknown.
Proof.
  unfold util.statusOf.
  destruct (String.eqb state InstanceLifecycleStateRunning); [ by left |].
  destruct (String.eqb state InstanceLifecycleStateStopped
            || String.eqb state InstanceLifecycleStateTerminated);
    [ right; by left | right; by right ].
Qed.

(** C8. The mapping from the lifecycle state of an instance record to
    the status of the normalised instance is a total function into the
    three statuses: [RUNNING] gives [running]; [STOPPED] and
    [TERMINATED] give [stopped]; every other state, the enumerated
    [PROVISIONING], [STARTING], [STOPPING], [TERMINATING], [MOVING],
    [CREATING_IMAGE] and any state not enumerated, gives [unknown].
    Normalising a record that carries an identifier returns, with the
    status the mapping gives. *)
Theorem status_mapping_total :
  forall (ociInstance : Instance),
    (util.statusOf (LifecycleState ociInstance) = InstanceRunning
     \/ util.statusOf (LifecycleState ociInstance) = InstanceStopped
     \/ util.statusOf (LifecycleState ociInstance) = InstanceStatusUnknown)
    /\ (LifecycleState ociInstance = InstanceLifecycleStateRunning ->
        util.statusOf (LifecycleState ociInstance) = InstanceRunning)
    /\ (LifecycleState ociInstance = InstanceLifecycleStateStopped
        \/ LifecycleState ociInstance = InstanceLifecycleStateTerminated ->
        util.statusOf (LifecycleState ociInstance) = InstanceStopped)
    /\ (LifecycleState ociInstance <> InstanceLifecycleStateRunning ->
        LifecycleState ociInstance <> InstanceLifecycleStateStopped ->
        LifecycleState ociInstance <> InstanceLifecycleStateTerminated ->
        util.statusOf (LifecycleState ociInstance) = InstanceStatusUnknown)
    /\ map util.statusOf InstanceLifecycleStateEnumValues
       = [ (* MOVING *) InstanceStatusUnknown;
           (* PROVISIONING *) InstanceStatusUnknown;
           (* RUNNING *) InstanceRunning;
           (* STARTING *) InstanceStatusUnknown;
           (* STOPPING *) InstanceStatusUnknown;
           (* STOPPED *) InstanceStopped;
           (* CREATING_IMAGE *) InstanceStatusUnknown;
           (* TERMINATING *) InstanceStatusUnknown;
           (* TERMINATED *) InstanceStopped ]
    /\ (forall id : string,
        Id ociInstance = Some id ->
        util.OciInstanceToProviderInstance ociInstance
        = Done {| ProviderID := id;
                  Name := index (FreeformTags ociInstance) "Name";
                  OSType_ := index (FreeformTags ociInstance) "OSType";
                  OSArch_ := index (FreeformTags ociInstance) "OSArch";
                  Status := util.statusOf (LifecycleState ociInstance) |}).
Proof.
  intros ociInstance. repeat split.
  - apply statusOf_buckets.
  - intros ->. reflexivity.
  - intros [-> | ->]; reflexivity.
  - apply statusOf_other.
  - intros id Hid. unfold util.OciInstanceToProviderInstance.
    rewrite Hid. reflexivity.
Qed.

Lemma status_mapping_total_witness :
  util.OciInstanceToProviderInstance provisioningInstance
  = Done {| ProviderID := "id"; Name := "name"; OSType_ := Linux;
            OSArch_ := Amd64; Status := InstanceStatusUnknown |}.
Proof.
  destruct (status_mapping_total provisioningInstance)
    as (_ & _ & _ & Hother & _ & Hdone).
  rewrite (Hdone "id" eq_refl).
  rewrite Hother; [ reflexivity | discriminate | discriminate | discriminate ].
Defined.

(** ** The resolver *)

Section Resolver.
Context {W : Type} {computeClient : compute.ClientInterface W}.

Lemma tagsMatch_byName (handle : string) (i : Instance) :
  client.tagsMatch (byName handle) i
  = String.eqb (index (FreeformTags i) "Name") handle.
Proof.
  unfold client.tagsMatch, byName. rewrite map_to_list_singleton. simpl.
  apply andb_true_r.
Qed.

Lemma findInItems_no_match (tags : gmap string string) (items : list Instance) :
  firstMatch tags items = None ->
  client.findInItems tags items = (None, None).
Proof.
  unfold firstMatch. induction items as [| i rest IH]; simpl; [ reflexivity |].
  fold (terminated i).
  destruct (terminated i); simpl.
  - exact IH.
  - destruct (client.tagsMatch tags i); [ discriminate | reflexivity ].
Qed.

(** What the loop does return: it stops at the first instance that is
    not terminated, whether or not that instance matches. *)
Lemma findInItems_first_live (tags : gmap string string) (items : list Instance) :
  client.findInItems tags items =
    match List.find (fun i => negb (terminated i)) items with
    | Some i => if client.tagsMatch tags i then (Some i, None) else (None, None)
    | None => (None, None)
    end.
Proof.
  induction items as [| i rest IH]; simpl; [ reflexivity |].
  fold (terminated i). destruct (terminated i); simpl; [ exact IH | reflexivity ].
Qed.

Lemma FindInstanceByTags_listed (o : client.OciCli) (tags : gmap string string)
  (w w' : W) (resp : ListInstancesResponse) :
  compute.ListInstances {| lsr_CompartmentId := CompartmentId (client.cfg o) |} w
    = (inl resp, w') ->
  client.FindInstanceByTags o tags w
    = (Done (client.findInItems tags (Items resp)), w').
Proof.
  intros Hlist. unfold client.FindInstanceByTags.
  rewrite run_call_bind, Hlist. reflexivity.
Qed.

Lemma firstMatch_byName_none (handle : string) (items : list Instance) :
  (forall i, In i items ->
     LifecycleState i <> InstanceLifecycleStateTerminated ->
     index (FreeformTags i) "Name" <> handle) ->
  firstMatch (byName handle) items = None.
Proof.
  intros H. unfold firstMatch.
  destruct (List.find _ items) as [i |] eqn:Hfind; [| reflexivity ].
  apply List.find_some in Hfind as [Hin Hi].
  apply andb_prop in Hi as [Hlive Hname].
  rewrite tagsMatch_byName in Hname.
  apply String.eqb_eq in Hname.
  exfalso. apply (H i Hin); [| exact Hname ].
  intros Hterm. unfold terminated in Hlive. rewrite Hterm in Hlive.
  discriminate.
Qed.

End Resolver.

(** C1. For a handle without the [ocid1.instance] prefix and a listing in
    which no instance that is not terminated carries the handle as its
    [Name] tag, [DeleteInstance] does not return: the resolver reports
    the missing instance as [(nil, nil)], not as [ErrNotFound], and
    [DeleteInstance] dereferences the nil instance. *)
Theorem DeleteInstance_unmatched_name_panics :
  forall (W : Type) (computeClient : compute.ClientInterface W)
         (o : client.OciCli) (instanceID : string) (w w' : W)
         (resp : ListInstancesResponse),
    client.HasPrefix instanceID "ocid1.instance" = false ->
    compute.ListInstances {| lsr_CompartmentId := CompartmentId (client.cfg o) |} w
      = (inl resp, w') ->
    (forall i, In i (Items resp) ->
       LifecycleState i <> InstanceLifecycleStateTerminated ->
       index (FreeformTags i) "Name" <> instanceID) ->
    client.DeleteInstance o instanceID w = (Panic nilDereference, w').
Proof.
  intros W cc o instanceID w w' resp Hprefix Hlist Hnone.
  unfold client.DeleteInstance. rewrite Hprefix.
  unfold mbind at 1. unfold Cloud_bind.
  fold (byName instanceID).
  rewrite (FindInstanceByTags_listed o _ w w' resp Hlist).
  rewrite (findInItems_no_match _ _ (firstMatch_byName_none _ _ Hnone)).
  reflexivity.
Qed.

Lemma DeleteInstance_unmatched_name_panics_witness :
  client.DeleteInstance testCli "my-runner" goneWorld
  = (Panic nilDereference, goneWorld).
Proof.
  apply (DeleteInstance_unmatched_name_panics memory.World memory.service
           testCli "my-runner" goneWorld goneWorld {| Items := goneWorld |}).
  - reflexivity.
  - reflexivity.
  - intros i [<- | []] Hlive. exfalso. apply Hlive. reflexivity.
Defined.

(** Where the loop and the specification agree: when the first instance
    that is not terminated matches, it is the one returned. *)
Lemma findInItems_first_live_matches (tags : gmap string string)
  (items : list Instance) (i : Instance) :
  List.find (fun i => negb (terminated i)) items = Some i ->
  client.tagsMatch tags i = true ->
  client.findInItems tags items = (Some i, None)
  /\ firstMatch tags items = Some i.
Proof.
  intros Hfind Hmatch. split.
  - rewrite findInItems_first_live, Hfind, Hmatch. reflexivity.
  - unfold firstMatch. induction items as [| j rest IH]; [ discriminate |].
    simpl in *. destruct (terminated j); simpl in *.
    + apply IH, Hfind.
    + injection Hfind as ->. rewrite Hmatch. reflexivity.
Qed.

(** C2. The resolver does not scan past the first instance that is not
    terminated: with [other-runner] listed before [my-runner], both
    running, resolving [my-runner] returns no instance and no error,
    where the first matching instance of the listing is [my-runner]. *)
Theorem FindInstanceByTags_stops_at_first_live :
  client.FindInstanceByTags testCli (byName "my-runner") twoRunners
    = (Done (None, None), twoRunners)
  /\ firstMatch (byName "my-runner") twoRunners = Some myRunner.
Proof.
  split.
  - rewrite (FindInstanceByTags_listed (computeClient := memory.service)
               testCli _ twoRunners twoRunners {| Items := twoRunners |});
      [| reflexivity ].
    rewrite findInItems_first_live. simpl.
    rewrite tagsMatch_byName. reflexivity.
  - unfold firstMatch, twoRunners. simpl.
    rewrite !tagsMatch_byName. reflexivity.
Qed.

(** ** Creating an instance *)

(** C10. When the runner spec is built and the launch call returns an
    instance record with an identifier, [CreateInstance] returns the
    normalised instance with that identifier, the name, OS type and
    architecture of the bootstrap request, and the status [running]:
    the lifecycle state of the returned record is not read. *)
Theorem CreateInstance_reports_running :
  forall (W : Type) (computeClient : compute.ClientInterface W)
         (Unmarshal : string -> spec.extraSpecs -> spec.extraSpecs * option error)
         (DefaultToolFetch :
            OSType -> OSArch -> list RunnerApplicationDownload ->
            RunnerApplicationDownload + error)
         (GetCloudConfig :
            BootstrapInstance -> RunnerApplicationDownload -> string ->
            string + error)
         (EncodeToString : string -> string)
         (o : provider.OciProvider) (bootstrapParams : BootstrapInstance)
         (runnerSpec : spec.RunnerSpec) (w w' : W)
         (response : LaunchInstanceResponse) (id : string),
    spec.GetRunnerSpecFromBootstrapParams Unmarshal DefaultToolFetch
      GetCloudConfig EncodeToString (provider.cfg o) bootstrapParams
      (provider.controllerID o) = inl runnerSpec ->
    compute.LaunchInstance (client.launchRequest runnerSpec) w
      = (inl response, w') ->
    Id (lir_Instance response) = Some id ->
    provider.CreateInstance Unmarshal DefaultToolFetch GetCloudConfig
      EncodeToString o bootstrapParams w
    = (Done (inl {| ProviderID := id;
                    Name := bi_Name (spec.BootstrapParams runnerSpec);
                    OSType_ := bi_OSType (spec.BootstrapParams runnerSpec);
                    OSArch_ := bi_OSArch (spec.BootstrapParams runnerSpec);
                    Status := "running" |}), w').
Proof.
  intros W cc Unmarshal DefaultToolFetch GetCloudConfig EncodeToString
    o bootstrapParams runnerSpec w w' response id Hspec Hlaunch Hid.
  unfold provider.CreateInstance. rewrite Hspec.
  unfold client.CreateInstance.
  unfold mbind at 1. unfold Cloud_bind at 1.
  rewrite run_call_bind, Hlaunch. simpl.
  rewrite Hid. reflexivity.
Qed.

Lemma CreateInstance_reports_running_witness :
  exists (p : ProviderInstance) (w' : memory.World),
    provider.CreateInstance memory.unmarshal memory.toolFetch
      memory.cloudConfig memory.encode memory.testProvider memory.request []
    = (Done (inl p), w')
    /\ Status p = "running"
    /\ Forall (fun i => util.statusOf (LifecycleState i) = InstanceStatusUnknown) w'.
Proof.
  eexists. eexists. split.
  - eapply (CreateInstance_reports_running memory.World memory.service).
    + vm_compute. reflexivity.
    + reflexivity.
    + reflexivity.
  - split; [ reflexivity | repeat constructor ].
Defined.

(** ** Merging extra specs onto the defaults *)

Lemma positive64_spec (x : Z) : positive64 x = true <-> 0 < x.
Proof. unfold positive64. apply Z.ltb_lt. Qed.

(** The merge as one record: what each field is afterwards. *)
Lemma MergeExtraSpecs_fields (r : RunnerSpec) (e : extraSpecs) :
  MergeExtraSpecs r e =
  {| rs_AvailabilityDomain := rs_AvailabilityDomain r;
     CompartmentID := CompartmentID r;
     rs_SubnetID := rs_SubnetID r; rs_NsgID := rs_NsgID r;
     BootVolumeSize :=
       if positive64 (es_BootVolumeSize e) then es_BootVolumeSize e
       else defaultBootVolumeSize;
     UserData := UserData r; ControllerID := ControllerID r;
     Ocpus :=
       if positive32 (es_Ocpus e) then es_Ocpus e else defaultOcpusAllocation;
     MemoryInGBs :=
       if positive32 (es_MemoryInGBs e) then es_MemoryInGBs e
       else defaultMemoryAllocation;
     SSHPublicKeys :=
       if (0 <? length (es_SSHPublicKeys e))%nat then es_SSHPublicKeys e
       else SSHPublicKeys r;
     DisableUpdates := if es_DisableUpdates e then true else DisableUpdates r;
     ExtraPackages := ExtraPackages r;
     EnableBootDebug := if es_EnableBootDebug e then true else EnableBootDebug r;
     rs_Tools := rs_Tools r; BootstrapParams := BootstrapParams r |}.
Proof.
  unfold MergeExtraSpecs.
  destruct (positive32 (es_Ocpus e)), (positive32 (es_MemoryInGBs e)),
           (positive64 (es_BootVolumeSize e)),
           (0 <? length (es_SSHPublicKeys e))%nat,
           (es_DisableUpdates e), (es_EnableBootDebug e);
    destruct r; reflexivity.
Qed.

(** a value that is not greater than zero is none of the defaults *)
Lemma default_not_positive32 (x : float) :
  positive32 x = false -> 1%float <> x /\ 4%float <> x.
Proof.
  intros Hx. split; intros <-; vm_compute in Hx; discriminate.
Qed.

(** C5. After the merge, the CPU count is the overlay's when that is
    greater than zero and [1] otherwise, the memory is the overlay's when
    greater than zero and [4] otherwise, the boot volume size is the
    overlay's when greater than zero and [255] otherwise, and the SSH
    keys are the overlay's when it has any and otherwise those the spec
    had before. *)
Theorem MergeExtraSpecs_sizing :
  forall (r : RunnerSpec) (e : extraSpecs),
    (positive32 (es_Ocpus e) = true ->
       Ocpus (MergeExtraSpecs r e) = es_Ocpus e)
    /\ (positive32 (es_Ocpus e) = false ->
       Ocpus (MergeExtraSpecs r e) = 1%float)
    /\ (positive32 (es_MemoryInGBs e) = true ->
       MemoryInGBs (MergeExtraSpecs r e) = es_MemoryInGBs e)
    /\ (positive32 (es_MemoryInGBs e) = false ->
       MemoryInGBs (MergeExtraSpecs r e) = 4%float)
    /\ (0 < es_BootVolumeSize e ->
       BootVolumeSize (MergeExtraSpecs r e) = es_BootVolumeSize e)
    /\ (es_BootVolumeSize e <= 0 ->
       BootVolumeSize (MergeExtraSpecs r e) = 255)
    /\ (es_SSHPublicKeys e <> [] ->
       SSHPublicKeys (MergeExtraSpecs r e) = es_SSHPublicKeys e)
    /\ (es_SSHPublicKeys e = [] ->
       SSHPublicKeys (MergeExtraSpecs r e) = SSHPublicKeys r)
    /\ (Ocpus (MergeExtraSpecs r e) = es_Ocpus e
        <-> positive32 (es_Ocpus e) = true)
    /\ (MemoryInGBs (MergeExtraSpecs r e) = es_MemoryInGBs e
        <-> positive32 (es_MemoryInGBs e) = true)
    /\ (BootVolumeSize (MergeExtraSpecs r e) = es_BootVolumeSize e
        <-> 0 < es_BootVolumeSize e).
Proof.
  intros r e. rewrite MergeExtraSpecs_fields. simpl.
  unfold defaultOcpusAllocation, defaultMemoryAllocation, defaultBootVolumeSize.
  pose proof (positive64_spec (es_BootVolumeSize e)) as Hb.
  pose proof (default_not_positive32 (es_Ocpus e)) as Ho1.
  pose proof (default_not_positive32 (es_MemoryInGBs e)) as Hm1.
  destruct (positive32 (es_Ocpus e)), (positive32 (es_MemoryInGBs e)),
           (positive64 (es_BootVolumeSize e)),
           (es_SSHPublicKeys e) as [| k ks];
    simpl; intuition (try congruence; try lia).
Qed.

Lemma MergeExtraSpecs_ocpus_examples (r : RunnerSpec) :
  Ocpus (MergeExtraSpecs r (overlayWithOcpus 0%float)) = 1%float
  /\ Ocpus (MergeExtraSpecs r (overlayWithOcpus (-2)%float)) = 1%float
  /\ Ocpus (MergeExtraSpecs r (overlayWithOcpus nan)) = 1%float
  /\ Ocpus (MergeExtraSpecs r (overlayWithOcpus 2.5%float)) = 2.5%float
  /\ MemoryInGBs (MergeExtraSpecs r (overlayWithOcpus 2.5%float)) = 4%float
  /\ BootVolumeSize (MergeExtraSpecs r (overlayWithOcpus 2.5%float)) = 255.
Proof. repeat split. Qed.

(** C9. Merging the same overlay a second time, onto the result of the
    first merge, changes nothing: the whole runner spec, and so its
    sizing, key list and toggles, is the one the first merge gave. *)
Theorem MergeExtraSpecs_idempotent :
  forall (r : RunnerSpec) (e : extraSpecs),
    MergeExtraSpecs (MergeExtraSpecs r e) e = MergeExtraSpecs r e.
Proof.
  intros r e.
  rewrite (MergeExtraSpecs_fields (MergeExtraSpecs r e) e).
  rewrite (MergeExtraSpecs_fields r e). simpl.
  destruct (0 <? length (es_SSHPublicKeys e))%nat,
           (es_DisableUpdates e), (es_EnableBootDebug e);
    reflexivity.
Qed.

Lemma MergeExtraSpecs_r2_fields (r : RunnerSpec) (e : spec_r2.extraSpecs) :
  spec_r2.MergeExtraSpecs r e =
  {| rs_AvailabilityDomain := rs_AvailabilityDomain r;
     CompartmentID := CompartmentID r;
     rs_SubnetID := rs_SubnetID r; rs_NsgID := rs_NsgID r;
     BootVolumeSize :=
       if positive64 (spec_r2.es_BootVolumeSize e) then spec_r2.es_BootVolumeSize e
       else defaultBootVolumeSize;
     UserData := UserData r; ControllerID := ControllerID r;
     Ocpus :=
       if positive32 (spec_r2.es_Ocpus e) then spec_r2.es_Ocpus e
       else defaultOcpusAllocation;
     MemoryInGBs :=
       if positive32 (spec_r2.es_MemoryInGBs e) then spec_r2.es_MemoryInGBs e
       else defaultMemoryAllocation;
     SSHPublicKeys :=
       if (0 <? length (spec_r2.es_SSHPublicKeys e))%nat
       then spec_r2.es_SSHPublicKeys e else SSHPublicKeys r;
     DisableUpdates := default (DisableUpdates r) (spec_r2.es_DisableUpdates e);
     ExtraPackages := ExtraPackages r;
     EnableBootDebug := default (EnableBootDebug r) (spec_r2.es_EnableBootDebug e);
     rs_Tools := rs_Tools r; BootstrapParams := BootstrapParams r |}.
Proof.
  unfold spec_r2.MergeExtraSpecs.
  destruct (positive32 (spec_r2.es_Ocpus e)),
           (positive32 (spec_r2.es_MemoryInGBs e)),
           (positive64 (spec_r2.es_BootVolumeSize e)),
           (0 <? length (spec_r2.es_SSHPublicKeys e))%nat,
           (spec_r2.es_DisableUpdates e), (spec_r2.es_EnableBootDebug e);
    destruct r; reflexivity.
Qed.

(** With pointer toggles, an overlay that carries the toggle as [false]
    clears a toggle that was set: the merge is not monotonic there. *)
Lemma MergeExtraSpecs_r2_explicit_false_clears :
  DisableUpdates toggledSpec = true
  /\ spec_r2.es_DisableUpdates explicitFalse = Some false
  /\ DisableUpdates (spec_r2.MergeExtraSpecs toggledSpec explicitFalse) = false.
Proof. repeat split. Qed.

(** C7, as amended. With boolean toggles in the overlay, a toggle of the
    runner spec that is set stays set under every merge.  With pointer
    toggles in the overlay, it stays set when the overlay lacks the
    toggle or carries it as [true], and the merge gives it the
    overlay's value whenever the overlay carries one, so that a carried
    [false] clears it. *)
Theorem MergeExtraSpecs_toggles :
  forall (r : RunnerSpec),
    (forall e : extraSpecs,
        (DisableUpdates r = true ->
           DisableUpdates (MergeExtraSpecs r e) = true)
        /\ (EnableBootDebug r = true ->
           EnableBootDebug (MergeExtraSpecs r e) = true))
    /\ (forall e : spec_r2.extraSpecs,
        (DisableUpdates r = true ->
         spec_r2.es_DisableUpdates e <> Some false ->
           DisableUpdates (spec_r2.MergeExtraSpecs r e) = true)
        /\ (EnableBootDebug r = true ->
            spec_r2.es_EnableBootDebug e <> Some false ->
           EnableBootDebug (spec_r2.MergeExtraSpecs r e) = true)
        /\ (forall b, spec_r2.es_DisableUpdates e = Some b ->
           DisableUpdates (spec_r2.MergeExtraSpecs r e) = b)
        /\ (forall b, spec_r2.es_EnableBootDebug e = Some b ->
           EnableBootDebug (spec_r2.MergeExtraSpecs r e) = b)).
Proof.
  intros r. split.
  - intros e. rewrite MergeExtraSpecs_fields. simpl.
    destruct (es_DisableUpdates e), (es_EnableBootDebug e);
      simpl; split; intros; congruence.
  - intros e. rewrite MergeExtraSpecs_r2_fields. simpl.
    destruct (spec_r2.es_DisableUpdates e) as [[|]|],
             (spec_r2.es_EnableBootDebug e) as [[|]|];
      simpl; repeat split; intros; congruence.
Qed.

(** ** Building the runner spec *)


Section BuilderFacts.
Variable Unmarshal : string -> extraSpecs -> extraSpecs * option error.
Variable DefaultToolFetch :
  OSType -> OSArch -> list RunnerApplicationDownload ->
  RunnerApplicationDownload + error.
Variable GetCloudConfig :
  BootstrapInstance -> RunnerApplicationDownload -> string -> string + error.
Variable EncodeToString : string -> string.



End BuilderFacts.



(** The first revision of the builder does not look at the result of
    [SetUserData]: once the tools are resolved and the extra specs read,
    it returns a runner spec, without user data when the OS type is not
    supported.  It rejects such a request only through [util.GetTools]. *)
Lemma GetRunnerSpec_r1_discards_error
  (Unmarshal : string -> spec_r1.extraSpecs -> spec_r1.extraSpecs * option error)
  (GetTools :
     OSType -> OSArch -> list RunnerApplicationDownload ->
     RunnerApplicationDownload + error)
  (GetCloudConfig :
     BootstrapInstance -> RunnerApplicationDownload -> string -> string + error)
  (EncodeToString : string -> string)
  (cfg : Config) (data : BootstrapInstance) (controllerID : string) :
  bi_OSType data <> Linux ->
  bi_OSType data <> Windows ->
  (forall e,
     GetTools (bi_OSType data) (bi_OSArch data) (Tools data) = inr e ->
     spec_r1.GetRunnerSpecFromBootstrapParams Unmarshal GetTools
       GetCloudConfig EncodeToString cfg data controllerID
     = inr (Errorf_s "failed to get tools: " (Error e)))
  /\ (forall tools extra,
     GetTools (bi_OSType data) (bi_OSArch data) (Tools data) = inl tools ->
     spec_r1.newExtraSpecsFromBootstrapData Unmarshal data = inl extra ->
     exists r,
       spec_r1.GetRunnerSpecFromBootstrapParams Unmarshal GetTools
         GetCloudConfig EncodeToString cfg data controllerID = inl r
       /\ UserData r = EmptyString).
Proof.
  intros Hl Hw. split.
  - intros e He. unfold spec_r1.GetRunnerSpecFromBootstrapParams.
    rewrite He. reflexivity.
  - intros tools extra Ht He.
    unfold spec_r1.GetRunnerSpecFromBootstrapParams. rewrite Ht, He.
    unfold spec_r1.SetUserData, spec_r1.ComposeUserData.
    assert (Hb : forall r, BootstrapParams (spec_r1.MergeExtraSpecs r extra)
                           = BootstrapParams r).
    { intros r. unfold spec_r1.MergeExtraSpecs.
      destruct (positive32 (spec_r1.es_Ocpus extra)),
               (positive32 (spec_r1.es_MemoryInGBs extra)),
               (positive64 (spec_r1.es_BootVolumeSize extra)),
               (0 <? length (spec_r1.es_SSHPublicKeys extra))%nat;
        reflexivity. }
    rewrite Hb. simpl.
    rewrite (eqb_false_of_ne _ _ Hl), (eqb_false_of_ne _ _ Hw).
    eexists. split; [ reflexivity |].
    unfold spec_r1.MergeExtraSpecs.
    destruct (positive32 (spec_r1.es_Ocpus extra)),
             (positive32 (spec_r1.es_MemoryInGBs extra)),
             (positive64 (spec_r1.es_BootVolumeSize extra)),
             (0 <? length (spec_r1.es_SSHPublicKeys extra))%nat;
      reflexivity.
Qed.


(** ** Validating the extra specs *)

Lemma append_cons (x : ascii) (a b : string) :
  String x a +:+ b = String x (a +:+ b).
Proof. reflexivity. Qed.















(** The documents of the repository's tests and of the specification,
    with the whole text of the error. *)
Lemma jsonSchemaValidation_examples :
  jsonSchemaValidation "{}" = None
  /\ jsonSchemaValidation
       ("{" +:+ quoted "ocpus" +:+ ": 2, " +:+ quoted "memory_in_gbs" +:+ ": 8, "
        +:+ quoted "boot_volume_size" +:+ ": 256, "
        +:+ quoted "ssh_public_keys" +:+ ": [" +:+ quoted "ssh-rsa AAAA" +:+ "], "
        +:+ quoted "disable_updates" +:+ ": true, "
        +:+ quoted "extra_context" +:+ ": {" +:+ quoted "key" +:+ ": "
        +:+ quoted "value" +:+ "}}") = None
  /\ jsonSchemaValidation ("{" +:+ quoted "ocpus" +:+ ": " +:+ quoted "2" +:+ "}")
     = Some (errorString
         "schema validation failed: [ocpus: Invalid type. Expected: number, given: string]")
  /\ jsonSchemaValidation ("{" +:+ quoted "unexpected_field" +:+ ": 1}")
     = Some (errorString
         "schema validation failed: [(root): Additional property unexpected_field is not allowed]")
  /\ jsonSchemaValidation
       ("{" +:+ quoted "boot_volume_size" +:+ ": " +:+ quoted "256" +:+ "}")
     = Some (errorString
         "schema validation failed: [boot_volume_size: Invalid type. Expected: integer, given: string]")
  /\ jsonSchemaValidation
       ("{" +:+ quoted "runner_install_template" +:+ ": 123}")
     = Some (errorString
         "schema validation failed: [runner_install_template: Invalid type. Expected: string, given: integer]")
  /\ jsonSchemaValidation "{"
     = Some (wrapError "failed to validate schema: unexpected EOF"
               io_ErrUnexpectedEOF).
Proof. repeat split; vm_compute; reflexivity. Qed.

(** *** String literals *)

Lemma skip_length (n : nat) (s : string) :
  (String.length (skip n s) <= String.length s)%nat.
Proof.
  revert s. induction n as [| n IH]; intros s; [ simpl; lia |].
  destruct s as [| c s]; simpl; [ lia |]. specialize (IH s). lia.
Qed.

Lemma DecodeRune_width (c : ascii) (s : string) :
  (1 <= (DecodeRune (String c s)).2)%nat.
Proof.
  unfold DecodeRune.
  destruct (N_of_ascii c <? 128)%N; [ simpl; lia |].
  destruct (acceptRange (N_of_ascii c)) as [[[sz lo] hi] |]; [| simpl; lia ].
  destruct s as [| p1 s1]; [ simpl; lia |].
  destruct ((N_of_ascii p1 <? lo)%N || (hi <? N_of_ascii p1)%N);
    [ simpl; lia |].
  destruct (sz <=? 2)%nat; [ simpl; lia |].
  destruct s1 as [| p2 s2]; [ simpl; lia |].
  destruct (negb (continuation (N_of_ascii p2))); [ simpl; lia |].
  destruct (sz <=? 3)%nat; [ simpl; lia |].
  destruct s2 as [| p3 s3]; [ simpl; lia |].
  destruct (negb (continuation (N_of_ascii p3))); simpl; lia.
Qed.

(** The loop of [unquoteBytes] reads at least one byte a turn: with more
    fuel than the text has bytes, its result does not depend on the
    fuel. *)
Lemma unquoteBytes_fuel (n m : nat) (s : string) :
  (String.length s < n)%nat -> (String.length s < m)%nat ->
  unquoteBytes n s = unquoteBytes m s.
Proof.
  revert m s. induction n as [| n IH]; intros m s Hn Hm; [ lia |].
  destruct m as [| m]; [ lia |].
  destruct s as [| c rest]; [ reflexivity |].
  cbn [unquoteBytes]. simpl String.length in Hn, Hm.
  assert (Hskip : forall k, (String.length (skip (S k) (String c rest))
                             <= String.length rest)%nat).
  { intros k. cbn [skip]. apply skip_length. }
  assert (Hskip2 : forall k j,
             (String.length (skip (S j) (skip (S k) (String c rest)))
              <= String.length rest)%nat).
  { intros k j. etransitivity; [ apply skip_length | apply Hskip ]. }
  destruct (Ascii.eqb c backslash).
  - destruct rest as [| e rest']; [ reflexivity |].
    destruct (Ascii.eqb e "u").
    + destruct (getu4 (String c (String e rest'))) as [rr |]; [| reflexivity ].
      pose proof (Hskip 5%nat) as H6. pose proof (Hskip2 5%nat 5%nat) as H12.
      destruct (IsSurrogate rr).
      * destruct (negb _).
        -- rewrite (IH m) by lia. reflexivity.
        -- rewrite (IH m) by lia. reflexivity.
      * rewrite (IH m) by lia. reflexivity.
    + destruct (unescape e); [| reflexivity ].
      rewrite (IH m) by (simpl String.length in *; lia). reflexivity.
  - destruct (Ascii.eqb c dquote || (nat_of_ascii c <? 32)%nat);
      [ reflexivity |].
    destruct (nat_of_ascii c <? 128)%nat.
    + rewrite (IH m) by lia. reflexivity.
    + pose proof (DecodeRune_width c rest) as Hw.
      destruct (DecodeRune (String c rest)) as [rr size]. simpl in Hw.
      destruct size as [| size]; [ lia |].
      pose proof (Hskip size) as Hs.
      rewrite (IH m) by lia. reflexivity.
Qed.

(** Escapes are decoded in keys and in values, a surrogate pair to one
    code point (here U+1F600, encoded [F0 9F 98 80]); a lone surrogate
    and a byte that is not UTF-8 become U+FFFD ([EF BF BD]); an escape
    with fewer than four hexadecimal digits is a syntax error. *)
Lemma Decode_string_literals :
  Decode ("{" +:+ quoted "ocpus" +:+ ": " +:+ quoted (escaped "u0032") +:+ "}")
    = inl (JObject [("ocpus", JString "2")])
  /\ Decode ("{" +:+ quoted (escaped "u006fcpus") +:+ ": 1}")
    = inl (JObject [("ocpus", JNumber "1")])
  /\ Decode (quoted (escaped "ud83d" +:+ escaped "ude00"))
    = inl (JString (String "240" (String "159" (String "152"
                      (String "128" EmptyString)))))
  /\ Decode (quoted (escaped "ud800" +:+ escaped "n"))
    = inl (JString (String "239" (String "191" (String "189"
                      (String "010" EmptyString)))))
  /\ Decode (quoted (String "255" (String "195" (String "169" "a"))))
    = inl (JString (String "239" (String "191" (String "189"
                      (String "195" (String "169" "a"))))))
  /\ Decode (quoted (escaped "u12")) = inr SyntaxError
  /\ jsonSchemaValidation
       ("{" +:+ quoted "ocpus" +:+ ": " +:+ quoted (escaped "u0032") +:+ "}")
     = Some (errorString
         "schema validation failed: [ocpus: Invalid type. Expected: number, given: string]")
  /\ jsonSchemaValidation ("{" +:+ quoted (escaped "u0065xtra") +:+ ": 1}")
     = Some (errorString
         "schema validation failed: [(root): Additional property extra is not allowed]")
  /\ jsonSchemaValidation (quoted (escaped "u0041"))
     = Some (errorString
         "schema validation failed: [(root): Invalid type. Expected: object, given: string]").
Proof. repeat split; vm_compute; reflexivity. Qed.

(** C3. For a bootstrap request whose extra-specs blob has no bytes, the
    overlay is not built: the schema validation, which runs before the
    length of the blob is looked at, fails to decode a document from
    the blob and its error [EOF] is returned, wrapped. *)
Theorem newExtraSpecs_empty_blob_fails :
  forall (Unmarshal : string -> extraSpecs -> extraSpecs * option error)
         (data : BootstrapInstance),
    ExtraSpecs data = EmptyString ->
    exists err : error,
      newExtraSpecsFromBootstrapData Unmarshal data = inr err
      /\ Error err
         = "failed to validate extra specs: failed to validate schema: EOF"
      /\ Is err io_EOF = true.
Proof.
  intros Unmarshal data Hblob. unfold newExtraSpecsFromBootstrapData.
  rewrite Hblob. eexists. split; [ reflexivity |]. split; reflexivity.
Qed.

Lemma newExtraSpecs_empty_blob_fails_witness :
  newExtraSpecsFromBootstrapData memory.unmarshal bareRequest
  = inr (Errorf_w "failed to validate extra specs: "
           (Errorf_w "failed to validate schema: " io_EOF)).
Proof.
  destruct (newExtraSpecs_empty_blob_fails memory.unmarshal bareRequest eq_refl)
    as (err & Hnew & _ & _).
  rewrite Hnew. vm_compute in Hnew. injection Hnew as <-. reflexivity.
Defined.

(** The empty object, on the other hand, gives the zero overlay as soon
    as [json.Unmarshal] reads it as such; and the build of a runner spec
    fails on a blob without bytes. *)
Lemma newExtraSpecs_empty_object
  (Unmarshal : string -> extraSpecs -> extraSpecs * option error)
  (data : BootstrapInstance) :
  ExtraSpecs data = "{}" ->
  Unmarshal "{}" extraSpecs_zero = (extraSpecs_zero, None) ->
  newExtraSpecsFromBootstrapData Unmarshal data = inl extraSpecs_zero.
Proof.
  intros Hblob Hun. unfold newExtraSpecsFromBootstrapData.
  rewrite Hblob. change (jsonSchemaValidation "{}") with (@None error).
  simpl. rewrite Hun. reflexivity.
Qed.

Lemma GetRunnerSpec_empty_blob_fails :
  GetRunnerSpecFromBootstrapParams memory.unmarshal memory.toolFetch
    memory.cloudConfig memory.encode testConfig bareRequest "controller"
  = inr (Errorf_w "error loading extra specs: "
           (Errorf_w "failed to validate extra specs: "
              (Errorf_w "failed to validate schema: " io_EOF))).
Proof. vm_compute. reflexivity. Qed.

(* ===================================================================== *)
(** * Further properties of the code                                     *)
(* ===================================================================== *)

(** ** Errors *)

Lemma error_eqb_refl (e : error) : error_eqb e e = true.
Proof.
  induction e as [| s | msg e IH]; simpl; [ reflexivity | apply String.eqb_refl |].
  rewrite String.eqb_refl, IH. reflexivity.
Qed.

Lemma Is_refl (e : error) : Is e e = true.
Proof. destruct e; simpl; rewrite ?String.eqb_refl, ?error_eqb_refl; reflexivity. Qed.

Lemma Is_Errorf_w (prefix : string) (e target : error) :
  Is e target = true -> Is (Errorf_w prefix e) target = true.
Proof. intros H. simpl. rewrite H. apply orb_true_r. Qed.

(** ** The configuration *)

(** X1. [Validate] accepts a configuration exactly when its nine
    placement and credential fields are all non-empty; the private key
    password is not looked at. *)
Theorem Validate_accepts_iff :
  forall c : Config,
    Config.Validate c = None
    <-> (AvailabilityDomain c <> EmptyString
         /\ CompartmentId c <> EmptyString
         /\ SubnetID c <> EmptyString
         /\ NsgID c <> EmptyString
         /\ TenancyID c <> EmptyString
         /\ UserID c <> EmptyString
         /\ Region c <> EmptyString
         /\ Fingerprint c <> EmptyString
         /\ PrivateKeyPath c <> EmptyString).
Proof.
  intros c. unfold Config.Validate.
  destruct (String.eqb_spec (AvailabilityDomain c) EmptyString);
    [ split; [ discriminate | tauto ] |].
  destruct (String.eqb_spec (CompartmentId c) EmptyString);
    [ split; [ discriminate | tauto ] |].
  destruct (String.eqb_spec (SubnetID c) EmptyString);
    [ split; [ discriminate | tauto ] |].
  destruct (String.eqb_spec (NsgID c) EmptyString);
    [ split; [ discriminate | tauto ] |].
  destruct (String.eqb_spec (TenancyID c) EmptyString);
    [ split; [ discriminate | tauto ] |].
  destruct (String.eqb_spec (UserID c) EmptyString);
    [ split; [ discriminate | tauto ] |].
  destruct (String.eqb_spec (Region c) EmptyString);
    [ split; [ discriminate | tauto ] |].
  destruct (String.eqb_spec (Fingerprint c) EmptyString);
    [ split; [ discriminate | tauto ] |].
  destruct (String.eqb_spec (PrivateKeyPath c) EmptyString);
    [ split; [ discriminate | tauto ] |].
  tauto.
Qed.

(** ** Listing the instances of a pool *)

(** X2. When the listing call succeeds, [ListInstances] returns, in the
    order of the listing, exactly the listed instances whose
    [GARM_POOL_ID] tag is the pool asked for and that are not
    terminated. *)
Theorem ListInstances_pool_filter :
  forall (W : Type) (computeClient : compute.ClientInterface W)
         (o : client.OciCli) (poolID : string) (w w' : W)
         (resp : ListInstancesResponse),
    compute.ListInstances {| lsr_CompartmentId := CompartmentId (client.cfg o) |} w
      = (inl resp, w') ->
    exists result : list Instance,
      client.ListInstances o poolID w = (Done (inl result), w')
      /\ (forall i : Instance,
            i ∈ result
            <-> i ∈ Items resp
                /\ index (FreeformTags i) "GARM_POOL_ID" = poolID
                /\ LifecycleState i <> InstanceLifecycleStateTerminated)
      /\ sublist result (Items resp).
Proof.
  intros W cc o poolID w w' resp Hlist.
  unfold client.ListInstances. rewrite run_call_bind, Hlist. simpl.
  eexists. split; [ reflexivity |]. split.
  - intros i. rewrite list_elem_of_filter, andb_true_iff, negb_true_iff.
    rewrite String.eqb_eq, String.eqb_neq. tauto.
  - apply sublist_filter.
Qed.

Lemma ListInstances_pool_filter_witness :
  exists result : list Instance,
    client.ListInstances testCli "pool-1" poolWorld = (Done (inl result), poolWorld)
    /\ map Id result
       = [ Some "ocid1.instance.oc1.iad.a"; Some "ocid1.instance.oc1.iad.d" ].
Proof.
  destruct (ListInstances_pool_filter memory.World memory.service testCli
              "pool-1" poolWorld poolWorld {| Items := poolWorld |} eq_refl)
    as (result & Hrun & _ & _).
  exists result. split; [ exact Hrun |].
  vm_compute in Hrun. injection Hrun as <-. reflexivity.
Defined.

(** ** Resolving a handle *)

Lemma tagsMatch_spec (tags : gmap string string) (i : Instance) :
  client.tagsMatch tags i = true
  <-> map_Forall (fun k v => index (FreeformTags i) k = v) tags.
Proof.
  unfold client.tagsMatch.
  rewrite map_Forall_to_list, forallb_forall, Forall_forall.
  split; intros H [k v] Hin; specialize (H (k, v)); simpl in *.
  - apply String.eqb_eq, H, list_elem_of_In, Hin.
  - apply String.eqb_eq, H, list_elem_of_In, Hin.
Qed.

Lemma findInItems_some (tags : gmap string string) (items : list Instance)
  (i : Instance) (err : option error) :
  client.findInItems tags items = (Some i, err) ->
  err = None
  /\ client.tagsMatch tags i = true
  /\ terminated i = false
  /\ exists before after : list Instance,
       items = (before ++ i :: after)%list
       /\ Forall (fun j => terminated j = true) before.
Proof.
  induction items as [| j rest IH]; simpl; [ discriminate |].
  fold (terminated j). destruct (terminated j) eqn:Hj; simpl.
  - intros H. destruct (IH H) as (He & Hm & Hi & before & after & -> & Hb).
    repeat split; try assumption.
    exists (j :: before), after. split; [ reflexivity |].
    constructor; assumption.
  - destruct (client.tagsMatch tags j) eqn:Hm; [| discriminate ].
    intros H. injection H as <- <-.
    repeat split; try assumption.
    exists [], rest. split; [ reflexivity | constructor ].
Qed.

(** X3. Whenever [FindInstanceByTags] returns an instance, it returns no
    error, the listing call succeeded, and the instance is one of the
    listing that is not terminated, carries every tag of the constraint
    set, and has only terminated instances before it in the listing. *)
Theorem FindInstanceByTags_sound :
  forall (W : Type) (computeClient : compute.ClientInterface W)
         (o : client.OciCli) (tags : gmap string string) (w w' : W)
         (i : Instance) (err : option error),
    client.FindInstanceByTags o tags w = (Done (Some i, err), w') ->
    err = None
    /\ LifecycleState i <> InstanceLifecycleStateTerminated
    /\ map_Forall (fun k v => index (FreeformTags i) k = v) tags
    /\ exists (resp : ListInstancesResponse) (before after : list Instance),
         compute.ListInstances
           {| lsr_CompartmentId := CompartmentId (client.cfg o) |} w
           = (inl resp, w')
         /\ Items resp = (before ++ i :: after)%list
         /\ Forall (fun j => LifecycleState j = InstanceLifecycleStateTerminated)
              before.
Proof.
  intros W cc o tags w w' i err. unfold client.FindInstanceByTags.
  rewrite run_call_bind.
  destruct (compute.ListInstances _ w) as [[resp | e] w1] eqn:Hlist; simpl;
    [| discriminate ].
  intros H. injection H as Hfind <-.
  destruct (findInItems_some _ _ _ _ Hfind)
    as (He & Hm & Hi & before & after & Hitems & Hb).
  split; [ exact He |]. split.
  { apply String.eqb_neq. exact Hi. }
  split; [ apply tagsMatch_spec, Hm |].
  exists resp, before, after. split; [ reflexivity |]. split; [ exact Hitems |].
  eapply Forall_impl; [ exact Hb |]. intros j Hj. apply String.eqb_eq, Hj.
Qed.

Lemma FindInstanceByTags_sound_witness :
  client.FindInstanceByTags testCli (byName "my-runner") revivedWorld
    = (Done (Some myRunner, None), revivedWorld)
  /\ LifecycleState myRunner <> InstanceLifecycleStateTerminated
  /\ map_Forall (fun k v => index (FreeformTags myRunner) k = v)
       (byName "my-runner").
Proof.
  assert (Hrun : client.FindInstanceByTags testCli (byName "my-runner") revivedWorld
                 = (Done (Some myRunner, None), revivedWorld)).
  { rewrite (FindInstanceByTags_listed (computeClient := memory.service)
               testCli _ revivedWorld revivedWorld {| Items := revivedWorld |});
      [| reflexivity ].
    rewrite findInItems_first_live. simpl.
    rewrite tagsMatch_byName. reflexivity. }
  split; [ exact Hrun |].
  destruct (FindInstanceByTags_sound memory.World memory.service testCli
              (byName "my-runner") revivedWorld revivedWorld myRunner None Hrun)
    as (_ & Hlive & Htags & _).
  split; [ exact Hlive | exact Htags ].
Defined.

(** X4. With an empty constraint set, [FindInstanceByTags] returns the
    first instance of the listing that is not terminated, whatever its
    tags, and nothing when every listed instance is terminated. *)
Theorem FindInstanceByTags_no_constraint :
  forall (W : Type) (computeClient : compute.ClientInterface W)
         (o : client.OciCli) (w w' : W) (resp : ListInstancesResponse),
    compute.ListInstances {| lsr_CompartmentId := CompartmentId (client.cfg o) |} w
      = (inl resp, w') ->
    client.FindInstanceByTags o ∅ w
    = (Done (List.find (fun i => negb (terminated i)) (Items resp), None), w').
Proof.
  intros W cc o w w' resp Hlist.
  rewrite (FindInstanceByTags_listed o ∅ w w' resp Hlist).
  rewrite findInItems_first_live.
  destruct (List.find _ (Items resp)) as [i |]; [| reflexivity ].
  unfold client.tagsMatch. rewrite map_to_list_empty. reflexivity.
Qed.

Lemma FindInstanceByTags_no_constraint_witness :
  client.FindInstanceByTags testCli ∅ twoRunners
  = (Done (Some otherRunner, None), twoRunners).
Proof.
  rewrite (FindInstanceByTags_no_constraint memory.World memory.service testCli
             twoRunners twoRunners {| Items := twoRunners |} eq_refl).
  reflexivity.
Defined.

Lemma findInItems_byName_first_live (handle : string) (items : list Instance)
  (i : Instance) :
  List.find (fun i => negb (terminated i)) items = Some i ->
  index (FreeformTags i) "Name" = handle ->
  client.findInItems (byName handle) items = (Some i, None).
Proof.
  intros Hfind Hname. rewrite findInItems_first_live, Hfind.
  rewrite tagsMatch_byName, Hname, String.eqb_refl. reflexivity.
Qed.

(** X5. [DeleteInstance] with a name: when the first instance of the
    listing that is not terminated carries the name and an identifier,
    exactly one termination request is made, for that identifier; the
    result is nil when the request succeeds and its error, wrapped,
    otherwise. *)
Theorem DeleteInstance_by_name :
  forall (W : Type) (computeClient : compute.ClientInterface W)
         (o : client.OciCli) (instanceID id : string) (w w' w'' : W)
         (resp : ListInstancesResponse) (i : Instance)
         (outcome : option error),
    client.HasPrefix instanceID "ocid1.instance" = false ->
    compute.ListInstances {| lsr_CompartmentId := CompartmentId (client.cfg o) |} w
      = (inl resp, w') ->
    List.find (fun i => negb (terminated i)) (Items resp) = Some i ->
    index (FreeformTags i) "Name" = instanceID ->
    Id i = Some id ->
    compute.TerminateInstance {| tir_InstanceId := id |} w' = (outcome, w'') ->
    client.DeleteInstance o instanceID w
    = (Done match outcome with
            | None => None
            | Some e => Some (Errorf_w "error terminating instance: " e)
            end, w'').
Proof.
  intros W cc o instanceID id w w' w'' resp i outcome
    Hprefix Hlist Hfind Hname Hid Hterm.
  unfold client.DeleteInstance. rewrite Hprefix.
  unfold mbind at 1. unfold Cloud_bind at 1. fold (byName instanceID).
  rewrite (FindInstanceByTags_listed o _ w w' resp Hlist).
  rewrite (findInItems_byName_first_live _ _ i Hfind Hname).
  rewrite run_deref_some, Hid, run_deref_some.
  unfold client.terminateById. rewrite run_call_bind, Hterm. simpl.
  destruct outcome; reflexivity.
Qed.

Lemma DeleteInstance_by_name_witness :
  client.DeleteInstance testCli "my-runner" revivedWorld
  = (Done None,
     [ instanceNamed "ocid1.instance.oc1.iad.a" "my-runner"
         InstanceLifecycleStateTerminated;
       instanceNamed "ocid1.instance.oc1.iad.b" "my-runner"
         InstanceLifecycleStateTerminating ]).
Proof.
  apply (DeleteInstance_by_name memory.World memory.service testCli
           "my-runner" "ocid1.instance.oc1.iad.b" revivedWorld revivedWorld _
           {| Items := revivedWorld |} myRunner None);
    reflexivity.
Defined.

(** X6. [GetInstance] with a name: when the first instance of the
    listing that is not terminated carries the name and an identifier,
    the record returned is the one the point lookup of that identifier
    gives, not the listed one; a failure of the lookup is returned
    wrapped. *)
Theorem GetInstance_by_name :
  forall (W : Type) (computeClient : compute.ClientInterface W)
         (o : client.OciCli) (instanceID id : string) (w w' w'' : W)
         (resp : ListInstancesResponse) (i : Instance)
         (outcome : GetInstanceResponse + error),
    client.HasPrefix instanceID "ocid1.instance" = false ->
    compute.ListInstances {| lsr_CompartmentId := CompartmentId (client.cfg o) |} w
      = (inl resp, w') ->
    List.find (fun i => negb (terminated i)) (Items resp) = Some i ->
    index (FreeformTags i) "Name" = instanceID ->
    Id i = Some id ->
    compute.GetInstance {| gir_InstanceId := id |} w' = (outcome, w'') ->
    client.GetInstance o instanceID w
    = (Done match outcome with
            | inl r => inl (gir_Instance r)
            | inr e => inr (Errorf_w "error getting instance: " e)
            end, w'').
Proof.
  intros W cc o instanceID id w w' w'' resp i outcome
    Hprefix Hlist Hfind Hname Hid Hget.
  unfold client.GetInstance. rewrite Hprefix.
  unfold mbind at 1. unfold Cloud_bind at 1. fold (byName instanceID).
  rewrite (FindInstanceByTags_listed o _ w w' resp Hlist).
  rewrite (findInItems_byName_first_live _ _ i Hfind Hname).
  rewrite run_deref_some, Hid, run_deref_some.
  unfold client.getById. rewrite run_call_bind, Hget. simpl.
  destruct outcome; reflexivity.
Qed.

Lemma GetInstance_by_name_witness :
  client.GetInstance testCli "my-runner" revivedWorld
  = (Done (inl myRunner), revivedWorld).
Proof.
  apply (GetInstance_by_name memory.World memory.service testCli
           "my-runner" "ocid1.instance.oc1.iad.b" revivedWorld revivedWorld _
           {| Items := revivedWorld |} myRunner
           (inl {| gir_Instance := myRunner |}));
    reflexivity.
Defined.

(** X7. When the listing call fails, a lookup by name decides on the
    error: if it is, or wraps, [ErrNotFound], [DeleteInstance] returns
    nil and [GetInstance] the error ["instance not found"]; otherwise
    both return the error wrapped twice, so that [errors.Is] still finds
    it.  No other call is made. *)
Theorem lookup_by_name_listing_fails :
  forall (W : Type) (computeClient : compute.ClientInterface W)
         (o : client.OciCli) (instanceID : string) (w w' : W) (e : error),
    client.HasPrefix instanceID "ocid1.instance" = false ->
    compute.ListInstances {| lsr_CompartmentId := CompartmentId (client.cfg o) |} w
      = (inr e, w') ->
    (Is e ErrNotFound = true ->
       client.DeleteInstance o instanceID w = (Done None, w')
       /\ client.GetInstance o instanceID w
          = (Done (inr (errorString "instance not found")), w'))
    /\ (Is e ErrNotFound = false ->
        exists err : error,
          client.DeleteInstance o instanceID w = (Done (Some err), w')
          /\ client.GetInstance o instanceID w = (Done (inr err), w')
          /\ Error err
             = "failed to determine instance: error listing instances: "
               +:+ Error e
          /\ Is err e = true).
Proof.
  intros W cc o instanceID w w' e Hprefix Hlist.
  assert (Hfind : forall tags,
             client.FindInstanceByTags o tags w
             = (Done (None, Some (Errorf_w "error listing instances: " e)), w')).
  { intros tags. unfold client.FindInstanceByTags.
    rewrite run_call_bind, Hlist. reflexivity. }
  assert (His : Is (Errorf_w "error listing instances: " e) ErrNotFound
                = Is e ErrNotFound) by reflexivity.
  unfold client.DeleteInstance, client.GetInstance. rewrite Hprefix.
  unfold mbind, Cloud_bind. rewrite !Hfind, His.
  split; intros Hnf; rewrite Hnf.
  - split; reflexivity.
  - eexists. split; [ reflexivity |]. split; [ reflexivity |].
    split; [ reflexivity |].
    apply Is_Errorf_w, Is_Errorf_w, Is_refl.
Qed.

Lemma lookup_by_name_listing_fails_witness :
  @client.DeleteInstance unit (failing timeout) testCli "my-runner" tt
  = (Done (Some (Errorf_w "failed to determine instance: "
                   (Errorf_w "error listing instances: " timeout))), tt)
  /\ @client.DeleteInstance unit (failing (Errorf_w "compute: " ErrNotFound))
       testCli "my-runner" tt
     = (Done None, tt).
Proof.
  split.
  - destruct (lookup_by_name_listing_fails unit (failing timeout) testCli
                "my-runner" tt tt timeout eq_refl eq_refl) as [_ Hother].
    destruct (Hother eq_refl) as (err & Hdel & _ & _ & _).
    rewrite Hdel. vm_compute in Hdel. injection Hdel as <-. reflexivity.
  - destruct (lookup_by_name_listing_fails unit
                (failing (Errorf_w "compute: " ErrNotFound)) testCli
                "my-runner" tt tt (Errorf_w "compute: " ErrNotFound)
                eq_refl eq_refl) as [Hnf _].
    destruct (Hnf eq_refl) as [Hdel _]. exact Hdel.
Defined.

(** X8. A handle that starts with [ocid1.instance] is used as the
    identifier as it is: [DeleteInstance] makes the termination request
    and [GetInstance] the point lookup for the handle itself, and what
    the listing call would answer has no part in the result. *)
Theorem lookup_by_identifier_does_not_list :
  forall (W : Type) (c1 c2 : compute.ClientInterface W)
         (o : client.OciCli) (instanceID : string) (w : W),
    client.HasPrefix instanceID "ocid1.instance" = true ->
    (forall req v, @compute.TerminateInstance W c1 req v
                   = @compute.TerminateInstance W c2 req v) ->
    (forall req v, @compute.GetInstance W c1 req v
                   = @compute.GetInstance W c2 req v) ->
    @client.DeleteInstance W c1 o instanceID w
    = @client.DeleteInstance W c2 o instanceID w
    /\ @client.GetInstance W c1 o instanceID w
       = @client.GetInstance W c2 o instanceID w
    /\ @client.DeleteInstance W c1 o instanceID w
       = (Done match (@compute.TerminateInstance W c1
                        {| tir_InstanceId := instanceID |} w).1 with
               | None => None
               | Some e => Some (Errorf_w "error terminating instance: " e)
               end,
          (@compute.TerminateInstance W c1
             {| tir_InstanceId := instanceID |} w).2)
    /\ @client.GetInstance W c1 o instanceID w
       = (Done match (@compute.GetInstance W c1
                        {| gir_InstanceId := instanceID |} w).1 with
               | inl r => inl (gir_Instance r)
               | inr e => inr (Errorf_w "error getting instance: " e)
               end,
          (@compute.GetInstance W c1
             {| gir_InstanceId := instanceID |} w).2).
Proof.
  intros W c1 c2 o instanceID w Hprefix Hterm Hget.
  unfold client.DeleteInstance, client.GetInstance. rewrite Hprefix.
  unfold client.terminateById, client.getById. rewrite !run_call_bind.
  rewrite Hterm, Hget. repeat split.
  - destruct (compute.TerminateInstance _ w) as [[e |] w1]; reflexivity.
  - destruct (compute.GetInstance _ w) as [[r | e] w1]; reflexivity.
Qed.

Lemma lookup_by_identifier_does_not_list_witness :
  @client.GetInstance _ unlistable testCli "ocid1.instance.oc1.iad.b" twoRunners
  = (Done (inl myRunner), twoRunners)
  /\ @client.GetInstance _ unlistable testCli "ocid1.instance.oc1.iad.b"
       twoRunners
     = @client.GetInstance _ memory.service testCli "ocid1.instance.oc1.iad.b"
         twoRunners.
Proof.
  destruct (lookup_by_identifier_does_not_list memory.World unlistable
              memory.service testCli "ocid1.instance.oc1.iad.b" twoRunners
              eq_refl (fun _ _ => eq_refl) (fun _ _ => eq_refl))
    as (_ & Hsame & _ & Hget).
  split; [ rewrite Hget; reflexivity | exact Hsame ].
Defined.

(** X9. [GetInstance] with a name that no instance of the listing that
    is not terminated carries does not return: the resolver answers
    [(nil, nil)] and the nil instance is dereferenced. *)
Theorem GetInstance_unmatched_name_panics :
  forall (W : Type) (computeClient : compute.ClientInterface W)
         (o : client.OciCli) (instanceID : string) (w w' : W)
         (resp : ListInstancesResponse),
    client.HasPrefix instanceID "ocid1.instance" = false ->
    compute.ListInstances {| lsr_CompartmentId := CompartmentId (client.cfg o) |} w
      = (inl resp, w') ->
    (forall i, In i (Items resp) ->
       LifecycleState i <> InstanceLifecycleStateTerminated ->
       index (FreeformTags i) "Name" <> instanceID) ->
    client.GetInstance o instanceID w = (Panic nilDereference, w').
Proof.
  intros W cc o instanceID w w' resp Hprefix Hlist Hnone.
  unfold client.GetInstance. rewrite Hprefix.
  unfold mbind at 1. unfold Cloud_bind. fold (byName instanceID).
  rewrite (FindInstanceByTags_listed o _ w w' resp Hlist).
  rewrite (findInItems_no_match _ _ (firstMatch_byName_none _ _ Hnone)).
  reflexivity.
Qed.

Lemma GetInstance_unmatched_name_panics_witness :
  client.GetInstance testCli "my-runner" goneWorld
  = (Panic nilDereference, goneWorld).
Proof.
  apply (GetInstance_unmatched_name_panics memory.World memory.service
           testCli "my-runner" goneWorld goneWorld {| Items := goneWorld |}).
  - reflexivity.
  - reflexivity.
  - intros i [<- | []] Hlive. exfalso. apply Hlive. reflexivity.
Defined.

(** ** More on the merge *)

(** X10. After the merge the sizing of a runner spec is greater than
    zero in each of its three fields, whatever the spec and the overlay
    were. *)
Theorem MergeExtraSpecs_sizing_positive :
  forall (r : RunnerSpec) (e : extraSpecs),
    positive32 (Ocpus (MergeExtraSpecs r e)) = true
    /\ positive32 (MemoryInGBs (MergeExtraSpecs r e)) = true
    /\ 0 < BootVolumeSize (MergeExtraSpecs r e).
Proof.
  intros r e. rewrite MergeExtraSpecs_fields. simpl.
  pose proof (positive64_spec (es_BootVolumeSize e)) as Hb.
  destruct (positive32 (es_Ocpus e)) eqn:Ho,
           (positive32 (es_MemoryInGBs e)) eqn:Hm,
           (positive64 (es_BootVolumeSize e)) eqn:Hp;
    repeat split; try assumption; try reflexivity; try (apply Hb; reflexivity).
Qed.

(** X11. The merge writes the sizing, the key list and the two toggles
    only: placement, user data, controller, extra packages, tools and
    bootstrap request are those of the spec before; and the sizing it
    writes does not depend on the sizing the spec had. *)
Theorem MergeExtraSpecs_frame :
  forall (r r' : RunnerSpec) (e : extraSpecs),
    rs_AvailabilityDomain (MergeExtraSpecs r e) = rs_AvailabilityDomain r
    /\ CompartmentID (MergeExtraSpecs r e) = CompartmentID r
    /\ rs_SubnetID (MergeExtraSpecs r e) = rs_SubnetID r
    /\ rs_NsgID (MergeExtraSpecs r e) = rs_NsgID r
    /\ UserData (MergeExtraSpecs r e) = UserData r
    /\ ControllerID (MergeExtraSpecs r e) = ControllerID r
    /\ ExtraPackages (MergeExtraSpecs r e) = ExtraPackages r
    /\ rs_Tools (MergeExtraSpecs r e) = rs_Tools r
    /\ BootstrapParams (MergeExtraSpecs r e) = BootstrapParams r
    /\ Ocpus (MergeExtraSpecs r e) = Ocpus (MergeExtraSpecs r' e)
    /\ MemoryInGBs (MergeExtraSpecs r e) = MemoryInGBs (MergeExtraSpecs r' e)
    /\ BootVolumeSize (MergeExtraSpecs r e)
       = BootVolumeSize (MergeExtraSpecs r' e).
Proof.
  intros r r' e. rewrite !MergeExtraSpecs_fields. simpl.
  repeat split.
Qed.

(** X12. Two merges in a row: the sizing is that of the second overlay
    alone (its value or the default, the first overlay's sizing is
    lost); the keys are the second overlay's when it has any, else the
    first's when it has any, else the spec's; a toggle is set when
    either overlay or the spec had it set. *)
Theorem MergeExtraSpecs_twice :
  forall (r : RunnerSpec) (e1 e2 : extraSpecs),
    Ocpus (MergeExtraSpecs (MergeExtraSpecs r e1) e2)
      = Ocpus (MergeExtraSpecs r e2)
    /\ MemoryInGBs (MergeExtraSpecs (MergeExtraSpecs r e1) e2)
      = MemoryInGBs (MergeExtraSpecs r e2)
    /\ BootVolumeSize (MergeExtraSpecs (MergeExtraSpecs r e1) e2)
      = BootVolumeSize (MergeExtraSpecs r e2)
    /\ SSHPublicKeys (MergeExtraSpecs (MergeExtraSpecs r e1) e2)
      = match es_SSHPublicKeys e2, es_SSHPublicKeys e1 with
        | _ :: _, _ => es_SSHPublicKeys e2
        | [], _ :: _ => es_SSHPublicKeys e1
        | [], [] => SSHPublicKeys r
        end
    /\ DisableUpdates (MergeExtraSpecs (MergeExtraSpecs r e1) e2)
      = es_DisableUpdates e2 || es_DisableUpdates e1 || DisableUpdates r
    /\ EnableBootDebug (MergeExtraSpecs (MergeExtraSpecs r e1) e2)
      = es_EnableBootDebug e2 || es_EnableBootDebug e1 || EnableBootDebug r.
Proof.
  intros r e1 e2.
  rewrite (MergeExtraSpecs_fields (MergeExtraSpecs r e1) e2).
  rewrite (MergeExtraSpecs_fields r e1), (MergeExtraSpecs_fields r e2). simpl.
  destruct (es_SSHPublicKeys e2), (es_SSHPublicKeys e1),
           (es_DisableUpdates e2), (es_DisableUpdates e1),
           (es_EnableBootDebug e2), (es_EnableBootDebug e1);
    repeat split.
Qed.

(** ** More on the build of the runner spec *)

Lemma supportedOS_eqb (os : OSType) :
  supportedOS os -> String.eqb os Linux || String.eqb os Windows = true.
Proof. intros [-> | ->]; reflexivity. Qed.

Lemma ComposeUserData_supported
  (GetCloudConfig :
     BootstrapInstance -> RunnerApplicationDownload -> string -> string + error)
  (r : RunnerSpec) :
  supportedOS (bi_OSType (BootstrapParams r)) ->
  ComposeUserData GetCloudConfig r
  = match GetCloudConfig (renderedRequest r) (rs_Tools r)
            (bi_Name (BootstrapParams r)) with
    | inr err => inr (Errorf_w "failed to generate userdata: " err)
    | inl udata => inl udata
    end.
Proof.
  intros Hos. unfold ComposeUserData. rewrite (supportedOS_eqb _ Hos).
  reflexivity.
Qed.

(** X13. [SetUserData] on a spec whose OS type is supported: when the
    renderer fails, or renders nothing, the spec is left as it was and
    an error is returned (the renderer's, wrapped twice, or
    ["failed to generate custom data"]); otherwise the encoding of the
    rendered text becomes the user data, which is then never that of an
    empty text, and no other field changes. *)
Theorem SetUserData_outcomes :
  forall (GetCloudConfig :
            BootstrapInstance -> RunnerApplicationDownload -> string ->
            string + error)
         (EncodeToString : string -> string) (r : RunnerSpec),
    supportedOS (bi_OSType (BootstrapParams r)) ->
    (forall e,
        GetCloudConfig (renderedRequest r) (rs_Tools r)
          (bi_Name (BootstrapParams r)) = inr e ->
        SetUserData GetCloudConfig EncodeToString r
        = (r, Some (Errorf_w "failed to compose userdata: "
                      (Errorf_w "failed to generate userdata: " e))))
    /\ (GetCloudConfig (renderedRequest r) (rs_Tools r)
          (bi_Name (BootstrapParams r)) = inl EmptyString ->
        SetUserData GetCloudConfig EncodeToString r
        = (r, Some (errorString "failed to generate custom data")))
    /\ (forall udata,
        GetCloudConfig (renderedRequest r) (rs_Tools r)
          (bi_Name (BootstrapParams r)) = inl udata ->
        udata <> EmptyString ->
        exists r' : RunnerSpec,
          SetUserData GetCloudConfig EncodeToString r = (r', None)
          /\ UserData r' = EncodeToString udata
          /\ set_UserData r' (UserData r) = set_UserData r (UserData r)).
Proof.
  intros G Enc r Hos. unfold SetUserData.
  rewrite (ComposeUserData_supported G r Hos).
  repeat split.
  - intros e ->. reflexivity.
  - intros ->. reflexivity.
  - intros udata -> Hne. destruct udata as [| c udata]; [ congruence |].
    simpl. eexists. split; [ reflexivity |]. split; reflexivity.
Qed.

Lemma SetUserData_outcomes_witness :
  SetUserData emptyRender memory.encode linuxSpec
    = (linuxSpec, Some (errorString "failed to generate custom data"))
  /\ SetUserData memory.cloudConfig memory.encode linuxSpec
    = (set_UserData linuxSpec "#cloud-config for r1", None).
Proof.
  destruct (SetUserData_outcomes emptyRender memory.encode linuxSpec)
    as (_ & Hempty & _); [ left; reflexivity |].
  destruct (SetUserData_outcomes memory.cloudConfig memory.encode linuxSpec)
    as (_ & _ & Hok); [ left; reflexivity |].
  split; [ apply Hempty; reflexivity |].
  destruct (Hok "#cloud-config for r1" eq_refl) as (r' & Hrun & _ & _);
    [ discriminate |].
  rewrite Hrun. vm_compute in Hrun. injection Hrun as <-. reflexivity.
Defined.

Lemma ComposeUserData_withRequestOptions
  (GetCloudConfig :
     BootstrapInstance -> RunnerApplicationDownload -> string -> string + error)
  (r : RunnerSpec) (o : UserDataOptions) :
  ComposeUserData GetCloudConfig (withRequestOptions r o)
  = ComposeUserData GetCloudConfig r.
Proof. reflexivity. Qed.

Lemma SetUserData_withRequestOptions
  (GetCloudConfig :
     BootstrapInstance -> RunnerApplicationDownload -> string -> string + error)
  (EncodeToString : string -> string) (r : RunnerSpec) (o : UserDataOptions) :
  SetUserData GetCloudConfig EncodeToString (withRequestOptions r o)
  = (withRequestOptions (SetUserData GetCloudConfig EncodeToString r).1 o,
     (SetUserData GetCloudConfig EncodeToString r).2).
Proof.
  unfold SetUserData. rewrite ComposeUserData_withRequestOptions.
  destruct (ComposeUserData GetCloudConfig r) as [udata | err];
    [| reflexivity ].
  destruct (String.length udata =? 0)%nat; reflexivity.
Qed.

(** X14. The user-data options a bootstrap request carries have no
    effect on a build: the same request with other options fails with
    the same error, or gives the same runner spec, user data included,
    but for the options kept in its copy of the request.  What reaches
    the renderer are the toggles and the packages of the extra specs. *)
Theorem GetRunnerSpec_ignores_request_options :
  forall (Unmarshal : string -> extraSpecs -> extraSpecs * option error)
         (DefaultToolFetch :
            OSType -> OSArch -> list RunnerApplicationDownload ->
            RunnerApplicationDownload + error)
         (GetCloudConfig :
            BootstrapInstance -> RunnerApplicationDownload -> string ->
            string + error)
         (EncodeToString : string -> string)
         (cfg : Config) (data : BootstrapInstance) (controllerID : string)
         (o : UserDataOptions),
    GetRunnerSpecFromBootstrapParams Unmarshal DefaultToolFetch GetCloudConfig
      EncodeToString cfg (withOptions data o) controllerID
    = match GetRunnerSpecFromBootstrapParams Unmarshal DefaultToolFetch
              GetCloudConfig EncodeToString cfg data controllerID with
      | inl r => inl (withRequestOptions r o)
      | inr err => inr err
      end.
Proof.
  intros Unmarshal Fetch G Enc cfg data controllerID o.
  unfold GetRunnerSpecFromBootstrapParams.
  change (newExtraSpecsFromBootstrapData Unmarshal (withOptions data o))
    with (newExtraSpecsFromBootstrapData Unmarshal data).
  cbn [withOptions bi_OSType bi_OSArch Tools].
  destruct (Fetch (bi_OSType data) (bi_OSArch data) (Tools data))
    as [tools | err]; [| reflexivity ].
  destruct (newExtraSpecsFromBootstrapData Unmarshal data) as [e | err];
    [| reflexivity ].
  cbv zeta. rewrite !MergeExtraSpecs_fields.
  lazymatch goal with
  | |- _ = match match SetUserData G Enc ?r with _ => _ end with _ => _ end =>
      set (r0 := r)
  end.
  lazymatch goal with
  | |- match SetUserData G Enc ?r1 with _ => _ end = _ =>
      change r1 with (withRequestOptions r0 o)
  end.
  rewrite SetUserData_withRequestOptions.
  destruct (SetUserData G Enc r0) as [r' [err |]]; reflexivity.
Qed.

(** X15. A build that succeeds: when the tools are resolved, the extra
    specs read, the OS type supported and the renderer gives a text that
    is not empty, the runner spec returned has the placement of the
    configuration, the controller given, the tools resolved, the
    request as given, the sizing, keys, toggles and packages of the
    overlay (defaults where the overlay has no positive value), and the
    encoding of the rendered text; the renderer is given the request
    with the overlay's toggles and packages as its user-data options. *)
Theorem GetRunnerSpec_succeeds :
  forall (Unmarshal : string -> extraSpecs -> extraSpecs * option error)
         (DefaultToolFetch :
            OSType -> OSArch -> list RunnerApplicationDownload ->
            RunnerApplicationDownload + error)
         (GetCloudConfig :
            BootstrapInstance -> RunnerApplicationDownload -> string ->
            string + error)
         (EncodeToString : string -> string)
         (cfg : Config) (data : BootstrapInstance) (controllerID : string)
         (tools : RunnerApplicationDownload) (extra : extraSpecs)
         (udata : string),
    DefaultToolFetch (bi_OSType data) (bi_OSArch data) (Tools data) = inl tools ->
    newExtraSpecsFromBootstrapData Unmarshal data = inl extra ->
    supportedOS (bi_OSType data) ->
    GetCloudConfig
      {| bi_Name := bi_Name data; Tools := Tools data;
         bi_OSArch := bi_OSArch data; bi_OSType := bi_OSType data;
         Flavor := Flavor data; Image := Image data; PoolID := PoolID data;
         ExtraSpecs := ExtraSpecs data;
         bi_UserDataOptions :=
           {| DisableUpdatesOnBoot := es_DisableUpdates extra;
              udo_ExtraPackages := es_ExtraPackages extra;
              udo_EnableBootDebug := es_EnableBootDebug extra |} |}
      tools (bi_Name data) = inl udata ->
    udata <> EmptyString ->
    GetRunnerSpecFromBootstrapParams Unmarshal DefaultToolFetch GetCloudConfig
      EncodeToString cfg data controllerID
    = inl {| rs_AvailabilityDomain := AvailabilityDomain cfg;
             CompartmentID := CompartmentId cfg;
             rs_SubnetID := SubnetID cfg;
             rs_NsgID := NsgID cfg;
             BootVolumeSize :=
               if positive64 (es_BootVolumeSize extra)
               then es_BootVolumeSize extra else 255;
             UserData := EncodeToString udata;
             ControllerID := controllerID;
             Ocpus :=
               if positive32 (es_Ocpus extra) then es_Ocpus extra else 1%float;
             MemoryInGBs :=
               if positive32 (es_MemoryInGBs extra)
               then es_MemoryInGBs extra else 4%float;
             SSHPublicKeys := es_SSHPublicKeys extra;
             DisableUpdates := es_DisableUpdates extra;
             ExtraPackages := es_ExtraPackages extra;
             EnableBootDebug := es_EnableBootDebug extra;
             rs_Tools := tools;
             BootstrapParams := data |}.
Proof.
  intros Unmarshal Fetch G Enc cfg data controllerID tools extra udata
    Hfetch Hextra Hos Hrender Hne.
  unfold GetRunnerSpecFromBootstrapParams. rewrite Hfetch, Hextra.
  rewrite MergeExtraSpecs_fields. unfold SetUserData.
  rewrite ComposeUserData_supported; [| exact Hos ].
  unfold renderedRequest. cbn [BootstrapParams DisableUpdates ExtraPackages
    EnableBootDebug rs_Tools].
  replace (if es_DisableUpdates extra then true else false)
    with (es_DisableUpdates extra) by (destruct (es_DisableUpdates extra); reflexivity).
  replace (if es_EnableBootDebug extra then true else false)
    with (es_EnableBootDebug extra) by (destruct (es_EnableBootDebug extra); reflexivity).
  rewrite Hrender.
  destruct udata as [| c udata]; [ congruence |].
  cbn [String.length Nat.eqb]. unfold set_UserData. simpl.
  destruct (es_SSHPublicKeys extra); reflexivity.
Qed.

Lemma GetRunnerSpec_succeeds_witness :
  GetRunnerSpecFromBootstrapParams memory.unmarshal memory.toolFetch
    memory.cloudConfig memory.encode testConfig memory.request "controller"
  = inl {| rs_AvailabilityDomain := "ad"; CompartmentID := "compartment";
           rs_SubnetID := "subnet"; rs_NsgID := "nsg"; BootVolumeSize := 255;
           UserData := "#cloud-config for r1"; ControllerID := "controller";
           Ocpus := 1%float; MemoryInGBs := 4%float; SSHPublicKeys := [];
           DisableUpdates := false; ExtraPackages := [];
           EnableBootDebug := false; rs_Tools := memory.tool;
           BootstrapParams := memory.request |}.
Proof.
  rewrite (GetRunnerSpec_succeeds memory.unmarshal memory.toolFetch
             memory.cloudConfig memory.encode testConfig memory.request
             "controller" memory.tool extraSpecs_zero "#cloud-config for r1");
    [ reflexivity | reflexivity | vm_compute; reflexivity | left; reflexivity
    | reflexivity | discriminate ].
Defined.

(** ** More on the extra specs *)

Lemma jsonSchemaValidation_empty : jsonSchemaValidation EmptyString <> None.
Proof. discriminate. Qed.

(** X16. The extra specs are validated before they are unmarshalled:
    when the validation fails, its error is returned wrapped and
    [json.Unmarshal] has no part in the result; when it passes, the blob
    has bytes and the result is what unmarshalling it into the zero
    overlay gives, an error being wrapped.  So the zero overlay is never
    returned for a blob without bytes. *)
Theorem newExtraSpecs_validates_first :
  forall (Unmarshal : string -> extraSpecs -> extraSpecs * option error)
         (data : BootstrapInstance),
    (forall e, jsonSchemaValidation (ExtraSpecs data) = Some e ->
       newExtraSpecsFromBootstrapData Unmarshal data
       = inr (Errorf_w "failed to validate extra specs: " e))
    /\ (jsonSchemaValidation (ExtraSpecs data) = None ->
        ExtraSpecs data <> EmptyString
        /\ newExtraSpecsFromBootstrapData Unmarshal data
           = match Unmarshal (ExtraSpecs data) extraSpecs_zero with
             | (_, Some e) => inr (Errorf_w "failed to unmarshal extra specs: " e)
             | (overlay, None) => inl overlay
             end).
Proof.
  intros Unmarshal data. unfold newExtraSpecsFromBootstrapData. split.
  - intros e ->. reflexivity.
  - intros Hvalid. rewrite Hvalid.
    destruct (ExtraSpecs data) as [| c blob] eqn:Hblob.
    + exfalso. apply jsonSchemaValidation_empty. exact Hvalid.
    + split; [ discriminate | reflexivity ].
Qed.







(** ** The operations of the provider *)

(** X19. [CreateInstance] makes no call to the compute service when the
    runner spec cannot be built: the error of the build is returned
    wrapped and the service is as it was.  When the spec is built and
    the launch call fails, the error of the call is returned wrapped
    twice, and [errors.Is] still finds it. *)
Theorem CreateInstance_failures :
  forall (W : Type) (computeClient : compute.ClientInterface W)
         (Unmarshal : string -> extraSpecs -> extraSpecs * option error)
         (DefaultToolFetch :
            OSType -> OSArch -> list RunnerApplicationDownload ->
            RunnerApplicationDownload + error)
         (GetCloudConfig :
            BootstrapInstance -> RunnerApplicationDownload -> string ->
            string + error)
         (EncodeToString : string -> string)
         (o : provider.OciProvider) (bootstrapParams : BootstrapInstance)
         (w : W),
    (forall e,
        GetRunnerSpecFromBootstrapParams Unmarshal DefaultToolFetch
          GetCloudConfig EncodeToString (provider.cfg o) bootstrapParams
          (provider.controllerID o) = inr e ->
        provider.CreateInstance Unmarshal DefaultToolFetch GetCloudConfig
          EncodeToString o bootstrapParams w
        = (Done (inr (Errorf_w "error getting runner spec: " e)), w))
    /\ (forall runnerSpec e w',
        GetRunnerSpecFromBootstrapParams Unmarshal DefaultToolFetch
          GetCloudConfig EncodeToString (provider.cfg o) bootstrapParams
          (provider.controllerID o) = inl runnerSpec ->
        compute.LaunchInstance (client.launchRequest runnerSpec) w
          = (inr e, w') ->
        exists err,
          provider.CreateInstance Unmarshal DefaultToolFetch GetCloudConfig
            EncodeToString o bootstrapParams w = (Done (inr err), w')
          /\ Error err
             = "error creating instance: error creating instance: " +:+ Error e
          /\ Is err e = true).
Proof.
  intros W cc Unmarshal Fetch G Enc o bootstrapParams w. split.
  - intros e He. unfold provider.CreateInstance. rewrite He. reflexivity.
  - intros runnerSpec e w' Hspec Hlaunch.
    unfold provider.CreateInstance. rewrite Hspec.
    unfold client.CreateInstance.
    unfold mbind at 1. unfold Cloud_bind at 1.
    rewrite run_call_bind, Hlaunch. simpl.
    eexists. split; [ reflexivity |]. split; [ reflexivity |].
    apply Is_Errorf_w, Is_Errorf_w, Is_refl.
Qed.

Lemma CreateInstance_failures_witness :
  provider.CreateInstance memory.unmarshal memory.toolFetch memory.cloudConfig
    memory.encode memory.testProvider freebsdRequest twoRunners
  = (Done (inr (Errorf_w "error getting runner spec: "
                  (unsupportedOSError "freebsd"))), twoRunners).
Proof.
  destruct (CreateInstance_failures memory.World memory.service
              memory.unmarshal memory.toolFetch memory.cloudConfig
              memory.encode memory.testProvider freebsdRequest twoRunners)
    as [Hbuild _].
  apply Hbuild. vm_compute. reflexivity.
Defined.

Lemma status_of_normalise (i : Instance) (id : string) :
  Id i = Some id ->
  exists p, util.OciInstanceToProviderInstance i = Done p.
Proof.
  intros Hid. unfold util.OciInstanceToProviderInstance. rewrite Hid.
  eexists. reflexivity.
Qed.

Lemma normaliseAll_all {W : Type} (ociInstances : list Instance) :
  Forall (fun i => Id i <> None) ociInstances ->
  forall (acc : list ProviderInstance) (w : W),
  exists ps : list ProviderInstance,
    provider.normaliseAll ociInstances acc w = (Done (acc ++ ps)%list, w)
    /\ Forall2 (fun i p => util.OciInstanceToProviderInstance i = Done p)
         ociInstances ps.
Proof.
  induction 1 as [| i rest Hi Hrest IH]; intros acc w.
  - exists []. split; [| constructor ]. simpl. rewrite app_nil_r. reflexivity.
  - destruct (Id i) as [id |] eqn:Hid; [| congruence ].
    destruct (status_of_normalise i id Hid) as (p & Hp).
    destruct (IH (acc ++ [p])%list w) as (ps & Hrun & Hall).
    exists (p :: ps). split; [| constructor; assumption ].
    simpl. unfold mbind, Cloud_bind, provider.local. rewrite Hp.
    rewrite Hrun, <- app_assoc. reflexivity.
Qed.

Lemma normaliseAll_nil_id {W : Type} (ociInstances : list Instance) :
  Exists (fun i => Id i = None) ociInstances ->
  forall (acc : list ProviderInstance) (w : W),
    provider.normaliseAll ociInstances acc w = (Panic nilDereference, w).
Proof.
  induction ociInstances as [| i rest IH]; intros Hex acc w.
  - inversion Hex.
  - simpl. unfold mbind, Cloud_bind, provider.local.
    unfold util.OciInstanceToProviderInstance.
    destruct (Id i) as [id |] eqn:Hid; [| reflexivity ].
    apply IH. inversion Hex as [? ? Hnone | ? ? Hlater]; subst;
      [ congruence | exact Hlater ].
Qed.

(** X20. [ListInstances] of the provider normalises the instances the
    client lists for the pool, one for one and in the same order, when
    each of them carries an identifier; when one of them carries none,
    it does not return, since normalising dereferences the identifier. *)
Theorem provider_ListInstances_normalises :
  forall (W : Type) (computeClient : compute.ClientInterface W)
         (o : provider.OciProvider) (poolID : string) (w w' : W)
         (instances : list Instance),
    client.ListInstances (provider.ociCli o) poolID w
      = (Done (inl instances), w') ->
    (Forall (fun i => Id i <> None) instances ->
       exists result : list ProviderInstance,
         provider.ListInstances o poolID w = (Done (inl result), w')
         /\ Forall2 (fun i p => util.OciInstanceToProviderInstance i = Done p)
              instances result)
    /\ (Exists (fun i => Id i = None) instances ->
        provider.ListInstances o poolID w = (Panic nilDereference, w')).
Proof.
  intros W cc o poolID w w' instances Hlist.
  unfold provider.ListInstances. split.
  - intros Hall. destruct (normaliseAll_all instances Hall [] w')
      as (ps & Hrun & Hps).
    exists ps. split; [| exact Hps ].
    unfold mbind, Cloud_bind. rewrite Hlist, Hrun. reflexivity.
  - intros Hex. unfold mbind, Cloud_bind.
    rewrite Hlist, (normaliseAll_nil_id instances Hex [] w'). reflexivity.
Qed.

Lemma provider_ListInstances_normalises_witness :
  provider.ListInstances memory.testProvider "pool-1" poolWorld
  = (Done (inl [ {| ProviderID := "ocid1.instance.oc1.iad.a"; Name := "r1";
                    OSType_ := EmptyString; OSArch_ := EmptyString;
                    Status := InstanceRunning |};
                 {| ProviderID := "ocid1.instance.oc1.iad.d"; Name := "r4";
                    OSType_ := EmptyString; OSArch_ := EmptyString;
                    Status := InstanceStopped |} ]), poolWorld).
Proof.
  destruct (provider_ListInstances_normalises memory.World memory.service
              memory.testProvider "pool-1" poolWorld poolWorld
              (filter (fun i => Id i <> Some "ocid1.instance.oc1.iad.b"
                                /\ Id i <> Some "ocid1.instance.oc1.iad.c")
                 poolWorld))
    as [Hall _]; [ vm_compute; reflexivity |].
  destruct Hall as (result & Hrun & _);
    [ repeat constructor; discriminate |].
  rewrite Hrun. vm_compute in Hrun. injection Hrun as <-. reflexivity.
Defined.

(** X21. [GetInstance] of the provider with an identifier: the record
    the point lookup returns is normalised, its status being the one
    the status mapping gives for its lifecycle state; a failure of the
    lookup is returned wrapped twice, and [errors.Is] still finds it. *)
Theorem provider_GetInstance_by_identifier :
  forall (W : Type) (computeClient : compute.ClientInterface W)
         (o : provider.OciProvider) (instanceID : string) (w w' : W),
    client.HasPrefix instanceID "ocid1.instance" = true ->
    (forall r id,
        compute.GetInstance {| gir_InstanceId := instanceID |} w
          = (inl r, w') ->
        Id (gir_Instance r) = Some id ->
        provider.GetInstance o instanceID w
        = (Done (inl {| ProviderID := id;
                        Name := index (FreeformTags (gir_Instance r)) "Name";
                        OSType_ := index (FreeformTags (gir_Instance r)) "OSType";
                        OSArch_ := index (FreeformTags (gir_Instance r)) "OSArch";
                        Status := util.statusOf
                                    (LifecycleState (gir_Instance r)) |}), w'))
    /\ (forall e,
        compute.GetInstance {| gir_InstanceId := instanceID |} w
          = (inr e, w') ->
        exists err,
          provider.GetInstance o instanceID w = (Done (inr err), w')
          /\ Error err
             = "error getting instance: error getting instance: " +:+ Error e
          /\ Is err e = true).
Proof.
  intros W cc o instanceID w w' Hprefix.
  unfold provider.GetInstance, client.GetInstance. rewrite Hprefix.
  unfold client.getById. split.
  - intros r id Hget Hid.
    unfold mbind at 1. unfold Cloud_bind at 1.
    rewrite run_call_bind, Hget. simpl.
    unfold mbind, Cloud_bind, provider.local,
      util.OciInstanceToProviderInstance.
    rewrite Hid. reflexivity.
  - intros e Hget.
    unfold mbind at 1. unfold Cloud_bind at 1.
    rewrite run_call_bind, Hget. simpl.
    eexists. split; [ reflexivity |]. split; [ reflexivity |].
    apply Is_Errorf_w, Is_Errorf_w, Is_refl.
Qed.

Lemma provider_GetInstance_by_identifier_witness :
  provider.GetInstance memory.testProvider "ocid1.instance.oc1.iad.b" twoRunners
  = (Done (inl {| ProviderID := "ocid1.instance.oc1.iad.b";
                  Name := "my-runner"; OSType_ := EmptyString;
                  OSArch_ := EmptyString; Status := InstanceRunning |}),
     twoRunners).
Proof.
  destruct (provider_GetInstance_by_identifier memory.World memory.service
              memory.testProvider "ocid1.instance.oc1.iad.b" twoRunners
              twoRunners eq_refl) as [Hfound _].
  rewrite (Hfound {| gir_Instance := myRunner |} "ocid1.instance.oc1.iad.b"
             eq_refl eq_refl).
  reflexivity.
Defined.

(** X22. [Stop] and [Start] send one instance action, [STOP] or
    [START], with the handle as the identifier: a name is not resolved,
    nothing is listed, and the [force] argument of [Stop] is not used.
    The result is nil when the action succeeds and its error, wrapped,
    otherwise. *)
Theorem Stop_Start_send_one_action :
  forall (W : Type) (computeClient : compute.ClientInterface W)
         (o : provider.OciProvider) (instance : string) (force : bool) (w : W),
    provider.Stop o instance force w
    = (Done match (compute.InstanceAction
                     {| iar_InstanceId := instance;
                        iar_Action := InstanceActionActionStop |} w).1 with
            | None => None
            | Some e => Some (Errorf_w "error stopping instance: " e)
            end,
       (compute.InstanceAction
          {| iar_InstanceId := instance;
             iar_Action := InstanceActionActionStop |} w).2)
    /\ provider.Start o instance w
       = (Done match (compute.InstanceAction
                        {| iar_InstanceId := instance;
                           iar_Action := InstanceActionActionStart |} w).1 with
               | None => None
               | Some e => Some (Errorf_w "error starting instance: " e)
               end,
          (compute.InstanceAction
             {| iar_InstanceId := instance;
                iar_Action := InstanceActionActionStart |} w).2).
Proof.
  intros W cc o instance force w.
  unfold provider.Stop, provider.Start, client.StopInstance,
    client.StartInstance.
  rewrite !run_call_bind. split.
  - destruct (compute.InstanceAction _ w) as [[e |] w1]; reflexivity.
  - destruct (compute.InstanceAction _ w) as [[e |] w1]; reflexivity.
Qed.

(** ** The tags written at launch and read afterwards *)

Lemma launch_tags (r : RunnerSpec) :
  let tags := lid_FreeformTags (lir_LaunchInstanceDetails (client.launchRequest r)) in
  index tags "Name" = bi_Name (BootstrapParams r)
  /\ index tags "GARM_POOL_ID" = PoolID (BootstrapParams r)
  /\ index tags "OSType" = bi_OSType (BootstrapParams r)
  /\ index tags "OSArch" = bi_OSArch (BootstrapParams r)
  /\ index tags "GARM_CONTROLLER_ID" = ControllerID r.
Proof.
  unfold index, client.launchRequest. simpl.
  repeat split; by simplify_map_eq.
Qed.

(** X23. The tags [CreateInstance] writes in the launch request are the
    ones the other operations read: an instance record that carries
    them and an identifier is normalised to the name, OS type and
    architecture of the bootstrap request, matches a lookup by that
    name, and carries the pool and the controller of the runner spec. *)
Theorem launch_tags_round_trip :
  forall (r : RunnerSpec) (i : Instance) (id : string),
    FreeformTags i
      = lid_FreeformTags (lir_LaunchInstanceDetails (client.launchRequest r)) ->
    Id i = Some id ->
    util.OciInstanceToProviderInstance i
      = Done {| ProviderID := id;
                Name := bi_Name (BootstrapParams r);
                OSType_ := bi_OSType (BootstrapParams r);
                OSArch_ := bi_OSArch (BootstrapParams r);
                Status := util.statusOf (LifecycleState i) |}
    /\ client.tagsMatch (byName (bi_Name (BootstrapParams r))) i = true
    /\ index (FreeformTags i) "GARM_POOL_ID" = PoolID (BootstrapParams r)
    /\ index (FreeformTags i) "GARM_CONTROLLER_ID" = ControllerID r.
Proof.
  intros r i id Htags Hid.
  destruct (launch_tags r) as (Hname & Hpool & Hos & Harch & Hctl).
  rewrite <- Htags in Hname, Hpool, Hos, Harch, Hctl.
  unfold util.OciInstanceToProviderInstance.
  rewrite Hid, Hname, Hos, Harch, tagsMatch_byName, Hname, String.eqb_refl.
  repeat split; assumption.
Qed.

Lemma launch_tags_round_trip_witness :
  util.OciInstanceToProviderInstance launchedRunner
    = Done {| ProviderID := "ocid1.instance.oc1..0"; Name := "r1";
              OSType_ := Linux; OSArch_ := Amd64;
              Status := InstanceStatusUnknown |}
  /\ index (FreeformTags launchedRunner) "GARM_POOL_ID" = "my-pool".
Proof.
  destruct (launch_tags_round_trip linuxSpec launchedRunner
              "ocid1.instance.oc1..0" eq_refl eq_refl)
    as (Hnorm & _ & Hpool & _).
  split; [ rewrite Hnorm; reflexivity | exact Hpool ].
Defined.

(** ** Tags that are missing *)

(** X24. A tag that an instance does not carry reads as the empty
    string: an instance that is not terminated and has no
    [GARM_POOL_ID] tag is listed for the pool with the empty
    identifier, and for no other pool; and an instance without a [Name]
    tag matches the lookup of the empty name, and of no other name. *)
Theorem missing_tag_reads_empty :
  forall (W : Type) (computeClient : compute.ClientInterface W)
         (o : client.OciCli) (poolID name : string) (w w' : W)
         (resp : ListInstancesResponse) (i : Instance),
    compute.ListInstances {| lsr_CompartmentId := CompartmentId (client.cfg o) |} w
      = (inl resp, w') ->
    i ∈ Items resp ->
    LifecycleState i <> InstanceLifecycleStateTerminated ->
    (FreeformTags i !! "GARM_POOL_ID" = None ->
       exists result,
         client.ListInstances o poolID w = (Done (inl result), w')
         /\ (i ∈ result <-> poolID = EmptyString))
    /\ (FreeformTags i !! "Name" = None ->
        (client.tagsMatch (byName name) i = true <-> name = EmptyString)).
Proof.
  intros W cc o poolID name w w' resp i Hlist Hin Hlive. split.
  - intros Hnone. unfold client.ListInstances.
    rewrite run_call_bind, Hlist. simpl.
    eexists. split; [ reflexivity |].
    rewrite list_elem_of_filter, andb_true_iff, negb_true_iff.
    rewrite String.eqb_eq, String.eqb_neq. unfold index. rewrite Hnone. simpl.
    split; [ intros [[Hp _] _]; symmetry; exact Hp | intros ->; tauto ].
  - intros Hnone. rewrite tagsMatch_byName, String.eqb_eq.
    unfold index. rewrite Hnone. simpl.
    split; intros H; symmetry; exact H.
Qed.

Lemma missing_tag_reads_empty_witness :
  (exists result,
      client.ListInstances (computeClient := memory.service) testCli
        EmptyString [ untagged ] = (Done (inl result), [ untagged ])
      /\ untagged ∈ result)
  /\ client.tagsMatch (byName EmptyString) untagged = true.
Proof.
  destruct (missing_tag_reads_empty memory.World memory.service testCli
              EmptyString EmptyString [ untagged ] [ untagged ]
              {| Items := [ untagged ] |} untagged)
    as [Hpool Hname];
    [ reflexivity | apply list_elem_of_here | discriminate |].
  split.
  - destruct (Hpool eq_refl) as (result & Hrun & Hmem).
    exists result. split; [ exact Hrun | apply Hmem; reflexivity ].
  - apply (Hname eq_refl). reflexivity.
Defined.

(** ** The causes of the errors of a build *)

Lemma length_append (a b : string) :
  String.length (a +:+ b) = (String.length a + String.length b)%nat.
Proof.
  induction a as [| c a IH]; [ reflexivity |].
  rewrite append_cons. simpl. rewrite IH. reflexivity.
Qed.

Lemma flattened_not_wrapped (prefix : string) (e : error) :
  prefix <> EmptyString ->
  Is (Errorf_s prefix (Error e)) e = false.
Proof.
  intros Hp. unfold Errorf_s. simpl. rewrite orb_false_r.
  destruct e as [| s | msg e]; try reflexivity.
  simpl. apply String.eqb_neq. intros Heq.
  apply (f_equal String.length) in Heq. rewrite length_append in Heq.
  destruct prefix; [ congruence | simpl in Heq; lia ].
Qed.

(** X25. The error of the tool resolver is flattened into the text of
    the build's error, ["failed to get tools: <text>"], and is not
    wrapped: [errors.Is] does not find it.  The error of the extra specs
    is wrapped, and [errors.Is] finds it. *)
Theorem GetRunnerSpec_error_causes :
  forall (Unmarshal : string -> extraSpecs -> extraSpecs * option error)
         (DefaultToolFetch :
            OSType -> OSArch -> list RunnerApplicationDownload ->
            RunnerApplicationDownload + error)
         (GetCloudConfig :
            BootstrapInstance -> RunnerApplicationDownload -> string ->
            string + error)
         (EncodeToString : string -> string)
         (cfg : Config) (data : BootstrapInstance) (controllerID : string),
    (forall e,
        DefaultToolFetch (bi_OSType data) (bi_OSArch data) (Tools data) = inr e ->
        exists err,
          GetRunnerSpecFromBootstrapParams Unmarshal DefaultToolFetch
            GetCloudConfig EncodeToString cfg data controllerID = inr err
          /\ Error err = "failed to get tools: " +:+ Error e
          /\ Is err e = false)
    /\ (forall tools e,
        DefaultToolFetch (bi_OSType data) (bi_OSArch data) (Tools data)
          = inl tools ->
        newExtraSpecsFromBootstrapData Unmarshal data = inr e ->
        exists err,
          GetRunnerSpecFromBootstrapParams Unmarshal DefaultToolFetch
            GetCloudConfig EncodeToString cfg data controllerID = inr err
          /\ Error err = "error loading extra specs: " +:+ Error e
          /\ Is err e = true).
Proof.
  intros Unmarshal Fetch G Enc cfg data controllerID. split.
  - intros e He. unfold GetRunnerSpecFromBootstrapParams. rewrite He.
    eexists. split; [ reflexivity |]. split; [ reflexivity |].
    apply flattened_not_wrapped. discriminate.
  - intros tools e Ht He. unfold GetRunnerSpecFromBootstrapParams.
    rewrite Ht, He.
    eexists. split; [ reflexivity |]. split; [ reflexivity |].
    apply Is_Errorf_w, Is_refl.
Qed.

Lemma GetRunnerSpec_error_causes_witness :
  exists err,
    GetRunnerSpecFromBootstrapParams memory.unmarshal noTools
      memory.cloudConfig memory.encode testConfig memory.request "controller"
    = inr err
    /\ Error err = "failed to get tools: not found"
    /\ Is err ErrNotFound = false.
Proof.
  destruct (GetRunnerSpec_error_causes memory.unmarshal noTools
              memory.cloudConfig memory.encode testConfig memory.request
              "controller") as [Hfetch _].
  destruct (Hfetch ErrNotFound eq_refl) as (err & Hrun & Htext & Hnot).
  exists err. split; [ exact Hrun |]. split; [ exact Htext | exact Hnot ].
Defined.
